(** * The Athena query proxy of [backend/app.py] and its Flask handlers

    A shallow embedding of [run_query], of the six query handlers, of the
    synthetic trend generator and of the two alert utility endpoints,
    followed by the properties the specification states about them.

    Python values are modelled as they occur in the program: floats are
    binary64 ([PrimFloat.float]), dictionaries are finite maps keyed by
    strings, the remote Athena client is a record of response functions,
    and a Python computation is a pair of an outcome (a returned value or
    a raised exception) and the list of remote calls and sleeps it made. *)

From Stdlib Require Import PrimFloat.
From Stdlib Require Uint63.
From Stdlib Require Import ZArith String List Ascii.
From stdpp Require Import base gmap strings list.
From Equations Require Import Equations.

Set Warnings "-inexact-float".
Local Open Scope Z_scope.

(** ** Python values and exceptions *)

(** The values that reach a JSON response of this program. *)
Inductive pyval :=
| VFloat (f : float)
| VStr (s : string)
| VInt (z : Z)
| VBool (b : bool)
| VNone.

(** A Python dict with string keys, as [item] and the JSON objects are. *)
Abbreviation pydict := (gmap string pyval).

(** The classes of [Exception] that occur; [RuntimeError] stands for any
    other subclass of [Exception] the client library may raise. *)
Inductive exn_class :=
| ClientError
| KeyError
| IndexError
| UnboundLocalError
| ValueError
| TypeError
| AttributeError
| RuntimeError.

Global Instance exn_class_eq_dec : EqDecision exn_class.
Proof. solve_decision. Defined.

(** An exception instance: its class and [str(e)]. *)
Record exn := Exn { exn_cls : exn_class; str : string }.

(** [d[key]] on a dict that lacks [key]: [str(KeyError(key))] is the
    [repr] of the key. *)
Definition key_error (key : string) : exn :=
  Exn KeyError ("'" +:+ key +:+ "'").

Definition index_error : exn := Exn IndexError "list index out of range".

(** Reading a local variable that no assignment has reached (wording of
    CPython 3.11 and later; no statement below depends on the wording
    beyond its being different from the proxy's own messages). *)
Definition unbound_local_error (name : string) : exn :=
  Exn UnboundLocalError
      ("cannot access local variable '" +:+ name +:+
       "' where it is not associated with a value").

(** ** Computations: outcome and trace *)

Inductive outcome (A : Type) :=
| Return (a : A)
| Raise (e : exn).
Arguments Return {A} a.
Arguments Raise {A} e.

(** What a computation does to the outside world, in the order it does it. *)
Inductive event :=
| EvStartQueryExecution (query database output_location : string)
| EvGetQueryExecution (query_id : string)
| EvSleep (seconds : Z)
| EvGetQueryResults (query_id : string).

Definition M (A : Type) : Type := (outcome A * list event)%type.

Definition ret {A} (a : A) : M A := (Return a, []).
Definition raise {A} (e : exn) : M A := (Raise e, []).

(** Sequencing: the continuation runs after a returned value, and its
    trace follows; a raised exception skips it. *)
Definition bind {A B} (k : A → M B) (m : M A) : M B :=
  match m with
  | (Return a, t) => let '(r, t') := k a in (r, t ++ t')
  | (Raise e, t) => (Raise e, t)
  end.

(** The events of [t] come first. *)
Definition after {A} (t : list event) (m : M A) : M A := (m.1, t ++ m.2).

Global Instance M_ret : MRet M := @ret.
Global Instance M_bind : MBind M := @bind.

(** [try: body except Exception as e: handler e]. Every exception of the
    model is an instance of [Exception]. *)
Definition try_except {A} (body : M A) (handler : exn → M A) : M A :=
  match body with
  | (Return a, t) => (Return a, t)
  | (Raise e, t) => let '(r, t') := handler e in (r, t ++ t')
  end.

(** [try: body except (c1, c2, ...): handler]: other classes propagate. *)
Definition try_except_classes {A} (body : M A) (classes : list exn_class)
    (handler : M A) : M A :=
  match body with
  | (Return a, t) => (Return a, t)
  | (Raise e, t) =>
      if bool_decide (exn_cls e ∈ classes)
      then let '(r, t') := handler in (r, t ++ t')
      else (Raise e, t)
  end.

(** A step that only leaves an event: [time.sleep]. *)
Definition emit (e : event) : M unit := (Return tt, [e]).

(** The result of a remote call, recorded in the trace. *)
Definition call {A} (e : event) (r : outcome A) : M A := (r, [e]).

(** [d[key]] for a key the dict may lack. *)
Definition getitem {A} (key : string) (field : option A) : M A :=
  match field with
  | Some a => ret a
  | None => raise (key_error key)
  end.

(** [l[i]] on a list. *)
Definition list_getitem {A} (l : list A) (i : nat) : M A :=
  match l !! i with
  | Some a => ret a
  | None => raise index_error
  end.

(** A local variable: [None] until an assignment reaches it. *)
Definition read_local {A} (name : string) (v : option A) : M A :=
  match v with
  | Some a => ret a
  | None => raise (unbound_local_error name)
  end.

(** ** The Athena client *)

(** The responses of boto3 are nested dicts; every key the program looks
    up is a field that may be absent. *)

Record StartResponse := { QueryExecutionId : option string }.

Record StatusDict := {
  State : option string;
  StateChangeReason : option string }.
Record QueryExecutionDict := { Status : option StatusDict }.
Record StatusResponse := { QueryExecution : option QueryExecutionDict }.

Record Cell := { VarCharValue : option string }.
Record Row := { Data : option (list Cell) }.
Record ResultSetDict := { Rows : option (list Row) }.
Record ResultsResponse := { ResultSet : option ResultSetDict }.

(** The behaviour of the remote service as seen by one run of the proxy:
    the answer to the submission, the answer to a status poll made
    [waited] seconds after the submission, and the answer to the fetch.
    Each answer is a response or a raised exception. *)
Record Athena := {
  start_query_execution :
    string → string → string → outcome StartResponse;
  get_query_execution : string → Z → outcome StatusResponse;
  get_query_results : string → outcome ResultsResponse }.

Definition DATABASE : string := "iot_processed_db".
Definition OUTPUT_S3 : string := "s3://iot-query-results-tanishka-new/".

(** What [run_query] returns: the list [data], or the dict
    [{"error": msg}]. *)
Inductive query_result :=
| PyList (data : list pydict)
| ErrorDict (msg : string).

(** ** The SQL texts of the six query handlers *)

Definition latest_query : string :=
  "
    WITH ranked AS (
        SELECT 
            device, co, smoke, temp, humidity, lpg,
            CAST(to_unixtime(ts) AS BIGINT) as ts,
            ROW_NUMBER() OVER (PARTITION BY device ORDER BY ts DESC) as rn
        FROM processed
    )
    SELECT device, device AS device_id, co, smoke, temp, humidity, lpg, ts
    FROM ranked
    WHERE rn <= 20;
    ".

Definition avg_metrics_query : string :=
  "
    SELECT device,
           AVG(co) AS avg_co,
           AVG(smoke) AS avg_smoke,
           AVG(temp) AS avg_temp
    FROM processed
    GROUP BY device
    ".

Definition max_metrics_query : string :=
  "
    SELECT device,
           MAX(co) AS max_co,
           MAX(smoke) AS max_smoke,
           MAX(temp) AS max_temp
    FROM processed
    GROUP BY device
    ".

Definition alert_counts_query : string :=
  "
    SELECT device,
           SUM(CASE WHEN co >= 0.120 THEN 1 ELSE 0 END) AS co_alerts
    FROM processed
    GROUP BY device
    ".

Definition humidity_co_query : string :=
  "
    SELECT humidity, AVG(co) AS avg_co
    FROM processed
    GROUP BY humidity
    ORDER BY humidity
    ".

(** The text is written in two pieces around the parenthesis of COUNT. *)
Definition temp_dist_query : string :=
  "
    SELECT temp, COUNT(" +:+ "*) AS count
    FROM processed
    GROUP BY temp
    ORDER BY temp
    ".

(** ** HTTP responses, requests and the alert store *)

(** The argument of [jsonify]: a list of dicts or one dict. *)
Inductive json :=
| JList (l : list pydict)
| JDict (d : pydict).

Record Response := { status_code : Z; body : json }.

(** [jsonify(x)] answers 200; [jsonify(x), 400] answers 400. *)
Definition jsonify (x : json) : Response :=
  {| status_code := 200; body := x |}.
Definition with_status (r : Response) (code : Z) : Response :=
  {| status_code := code; body := body r |}.

(** A value of the JSON object that a request of the documented
    interface carries: [alert_key] is a string, and [null] is kept apart
    from a missing key. [acknowledge_alert] below is the handler on these
    requests; [acknowledge_alert_any] is the handler on every request,
    and the two agree on these. *)
Inductive jvalue :=
| JString (s : string)
| JNull.

Abbreviation request_json := (gmap string jvalue).

(** [request.json.get(key)]: [None] for a missing key and for [null]. *)
Definition json_get (key : string) (request : request_json)
    : option string :=
  match request !! key with
  | Some (JString s) => Some s
  | Some JNull => None
  | None => None
  end.

(** Truth value of [alert_key]: [None] and the empty string are false. *)
Definition truthy_key (alert_key : option string) : bool :=
  match alert_key with
  | Some s => negb (String.eqb s "")
  | None => false
  end.

(** Truth value of what [run_query] returned: only the empty list is
    false (the error dict has one key). *)
Definition truthy (data : query_result) : bool :=
  match data with
  | PyList [] => false
  | PyList (_ :: _) => true
  | ErrorDict _ => true
  end.

(** [isinstance(data, dict) and "error" in data]. *)
Definition is_error (data : query_result) : bool :=
  match data with
  | PyList _ => false
  | ErrorDict _ => true
  end.

Definition to_json (data : query_result) : json :=
  match data with
  | PyList l => JList l
  | ErrorDict msg => JDict {[ "error" := VStr msg ]}
  end.

(** [data.append(x)]: a dict has no [append]. *)
Definition append (data : query_result) (x : pydict) : M query_result :=
  match data with
  | PyList l => ret (PyList (l ++ [x]))
  | ErrorDict _ =>
      raise (Exn AttributeError "'dict' object has no attribute 'append'")
  end.

(** Lines 110-120 and 127-137: the record of the demo alert;
    [now] is [int(time.time())]. *)
Definition simulated_alert_row (now : Z) : pydict :=
  list_to_map [
    ("device", VStr "b8:27:eb:bf:9d:51");
    ("device_id", VStr "b8:27:eb:bf:9d:51");
    ("co", VFloat 0.1305%float);
    ("smoke", VFloat 0.025%float);
    ("temp", VFloat 28.0%float);
    ("humidity", VFloat 40.0%float);
    ("lpg", VFloat 0.005%float);
    ("ts", VInt now);
    ("alert_key", VStr "simulated_tent1_danger_130") ].

(** The routes of the application. *)
Inductive endpoint :=
| Latest
| CoTrend
| AvgMetrics
| MaxMetrics
| AlertCounts
| HumidityCo
| TempDist
| AcknowledgeAlert
| ResetAlerts.

(** ** Well-formed responses and the shape of a run *)

(** The status response of a well-behaved service. *)
Definition status_response (state : string) (reason : option string)
    : StatusResponse :=
  {| QueryExecution :=
       Some {| Status :=
                 Some {| State := Some state;
                         StateChangeReason := reason |} |} |}.

(** The result set of a well-behaved service, a list of rows of cells. *)
Definition results_response (rows : list (list Cell)) : ResultsResponse :=
  {| ResultSet :=
       Some {| Rows := Some (map (λ cells, {| Data := Some cells |}) rows) |} |}.

(** A status other than the three the loop tests for keeps it polling:
    QUEUED and RUNNING in practice. *)
Definition pending (status : string) : bool :=
  negb (String.eqb status "SUCCEEDED") &&
  negb (bool_decide (status ∈ ["FAILED"; "CANCELLED"])).

(** The events of [n] polls that each found the query pending. *)
Definition polling (query_id : string) (n : nat) : list event :=
  concat (replicate n [EvGetQueryExecution query_id; EvSleep 1]).

(** The seconds a trace spends in [time.sleep]. *)
Fixpoint slept (t : list event) : Z :=
  match t with
  | [] => 0
  | EvSleep seconds :: t' => seconds + slept t'
  | _ :: t' => slept t'
  end.

(** The status polls of a trace. *)
Fixpoint polls (t : list event) : nat :=
  match t with
  | [] => 0
  | EvGetQueryExecution _ :: t' => S (polls t')
  | _ :: t' => polls t'
  end.

(** The submissions of a trace. *)
Fixpoint submissions (t : list event) : nat :=
  match t with
  | [] => 0
  | EvStartQueryExecution _ _ _ :: t' => S (submissions t')
  | _ :: t' => submissions t'
  end.

(** The fetches of a trace. *)
Fixpoint fetches (t : list event) : nat :=
  match t with
  | [] => 0
  | EvGetQueryResults _ :: t' => S (fetches t')
  | _ :: t' => fetches t'
  end.

(** ** Requests as Flask delivers them *)

(** The JSON values Python can hash: [None], a [bool], an [int], a
    [float] or a [str]. *)
Inductive json_scalar :=
| JsNull
| JsBool (b : bool)
| JsInt (z : Z)
| JsFloat (f : float)
| JsString (s : string).

(** A JSON value as [request.json] delivers it: a scalar, a list, or a
    dict given by its members in the order of the document (a later
    member of the same name replaces an earlier one). *)
#[local] Unset Elimination Schemes.
Inductive json_value :=
| JsScalar (x : json_scalar)
| JsArray (elements : list json_value)
| JsObject (members : list (string * json_value)).
#[local] Set Elimination Schemes.

(** [bool(x)]: [None], [False], zero and the empty string are false. *)
Definition scalar_truthy (x : json_scalar) : bool :=
  match x with
  | JsNull => false
  | JsBool b => b
  | JsInt z => negb (Z.eqb z 0)
  | JsFloat f => negb (PrimFloat.eqb f 0%float)
  | JsString s => negb (String.eqb s "")
  end.

(** [bool(v)]: the empty list and the empty dict are false too. *)
Definition value_truthy (v : json_value) : bool :=
  match v with
  | JsScalar x => scalar_truthy x
  | JsArray [] => false
  | JsArray (_ :: _) => true
  | JsObject [] => false
  | JsObject (_ :: _) => true
  end.

(** [type(v).__name__]. *)
Definition type_name (v : json_value) : string :=
  match v with
  | JsScalar JsNull => "NoneType"
  | JsScalar (JsBool _) => "bool"
  | JsScalar (JsInt _) => "int"
  | JsScalar (JsFloat _) => "float"
  | JsScalar (JsString _) => "str"
  | JsArray _ => "list"
  | JsObject _ => "dict"
  end.

(** [d.get(key)] on the dict of [members]: the last member of that
    name. *)
Fixpoint dict_get (key : string) (members : list (string * json_value))
    : option json_value :=
  match members with
  | [] => None
  | (k, v) :: rest =>
      match dict_get key rest with
      | Some v' => Some v'
      | None => if String.eqb k key then Some v else None
      end
  end.

(** The truth value of [request.json.get('alert_key')] on a dict. *)
Definition key_truthy (members : list (string * json_value)) : bool :=
  match dict_get "alert_key" members with
  | Some v => value_truthy v
  | None => false
  end.

(** A scalar as a value of a response. *)
Definition pyval_of_scalar (x : json_scalar) : pyval :=
  match x with
  | JsNull => VNone
  | JsBool b => VBool b
  | JsInt z => VInt z
  | JsFloat f => VFloat f
  | JsString s => VStr s
  end.

(** An expression that makes no remote call. *)
Definition eval {A} (o : outcome A) : M A := (o, []).

(** A store for the instances below: the keys handed to [set.add], the
    latest first. *)
Definition log_add (keys : list json_scalar) (x : json_scalar)
    : list json_scalar := x :: keys.
Definition log_clear (keys : list json_scalar) : list json_scalar := [].

(** ** A reference [float] for short decimal literals *)

(** The value of a decimal digit. *)
Definition digit (c : ascii) : option Z :=
  let n := Z.of_nat (nat_of_ascii c) in
  if bool_decide (48 ≤ n ≤ 57) then Some (n - 48) else None.

(** Reads the digits at the front of [s] after the number [acc]: the
    number read, how many digits were read, and the rest of [s]. *)
Fixpoint read_digits (s : string) (acc : Z) (count : nat)
    : Z * nat * string :=
  match s with
  | String c rest =>
      match digit c with
      | Some d => read_digits rest (10 * acc + d) (S count)
      | None => (acc, count, s)
      end
  | EmptyString => (acc, count, s)
  end.

Definition float_of_Z (z : Z) : float := of_uint63 (Uint63.of_Z z).

(** [float(s)] on the literals [[+-]digits[.digits]] (at least one digit)
    whose digits form a number below 2^53 with at most 18 digits after
    the point: both operands of the division are then exact, so the
    quotient is the correctly rounded value Python computes. Every other
    string is refused here; the instances below use it on such literals
    and on strings that Python refuses too. *)
Definition decimal_float (s : string) : option float :=
  let '(negative, s1) :=
    match s with
    | String "-"%char rest => (true, rest)
    | String "+"%char rest => (false, rest)
    | _ => (false, s)
    end in
  let '(int_part, int_digits, s2) := read_digits s1 0 0 in
  let '(mantissa, frac_digits, s3) :=
    match s2 with
    | String "."%char rest => read_digits rest int_part 0
    | _ => (int_part, 0%nat, s2)
    end in
  if String.eqb s3 "" &&
     bool_decide (0 < int_digits + frac_digits)%nat &&
     bool_decide (mantissa < 2 ^ 53) &&
     bool_decide (frac_digits ≤ 18)%nat
  then
    let x := (float_of_Z mantissa /
              float_of_Z (10 ^ Z.of_nat frac_digits))%float in
    Some (if negative then (- x)%float else x)
  else None.

(** ** Example services *)

Definition cell (s : string) : Cell := {| VarCharValue := Some s |}.

(** The cell Athena sends for a NULL: a dict without [VarCharValue]. *)
Definition null_cell : Cell := {| VarCharValue := None |}.

(** A service that accepts every submission under the id "query-1",
    answers the poll of second [w] with [status_at w] and [reason], and
    the fetch with [rows]. *)
Definition service (status_at : Z → string) (reason : option string)
    (rows : list (list Cell)) : Athena :=
  {| start_query_execution := λ _ _ _,
       Return {| QueryExecutionId := Some "query-1" |};
     get_query_execution := λ _ w,
       Return (status_response (status_at w) reason);
     get_query_results := λ _, Return (results_response rows) |}.

(** A service that cannot be reached. *)
Definition unreachable : Athena :=
  let e := Exn ClientError "Could not connect to the endpoint URL" in
  {| start_query_execution := λ _ _ _, Raise e;
     get_query_execution := λ _ _, Raise e;
     get_query_results := λ _, Raise e |}.

(** Status scripts: queued for three seconds and then failed; running
    for two seconds and then succeeded; running for ever; done at once. *)
Definition fails_after_3 (w : Z) : string :=
  if bool_decide (w < 3) then "QUEUED" else "FAILED".
Definition succeeds_after_2 (w : Z) : string :=
  if bool_decide (w < 2) then "RUNNING" else "SUCCEEDED".
Definition always_running (w : Z) : string := "RUNNING".
Definition succeeded (w : Z) : string := "SUCCEEDED".

(** A result set whose second data row has a NULL device. *)
Definition rows_with_null_device : list (list Cell) :=
  [ [cell "device"; cell "co"];
    [cell "00:0f:00:70:91:0a"; cell "0.004"];
    [null_cell; cell "0.005"] ].

(** The two kinds of value the data model gives a field of a row. *)
Definition float_or_string (v : pyval) : Prop :=
  match v with
  | VFloat _ | VStr _ => True
  | VInt _ | VBool _ | VNone => False
  end.

(** A fixed choice for the random draws, the rounding and the clock of
    the trend generator. *)
Definition uniform_low (n : nat) (a b : float) : float := a.
Definition round_id (x : float) : float := x.
Definition minutes_ago (m : Z) : Z := 1700000000 - 60 * m.

(** ** Section: the code, relative to the builtin [float] *)

Section App.

(** [float(s)] of the Python runtime on a string: [None] when it raises
    [ValueError]. *)
Variable float_of_string : string → option float.

(** The Athena client of the module. *)
Variable athena : Athena.

(** [float(value)] for a value that is a string or [None]. *)
Definition py_float (value : option string) : M float :=
  match value with
  | Some s =>
      match float_of_string s with
      | Some f => ret f
      | None =>
          raise (Exn ValueError
                   ("could not convert string to float: '" +:+ s +:+ "'"))
      end
  | None =>
      raise (Exn TypeError
               "float() argument must be a string or a real number, not 'NoneType'")
  end.

(** The Python value of [cell.get('VarCharValue', None)]. *)
Definition value_of (value : option string) : pyval :=
  match value with
  | Some s => VStr s
  | None => VNone
  end.

(** [header in ['device', 'device_id', 'alert_key']]. *)
Definition is_identifier (header : string) : bool :=
  bool_decide (header ∈ ["device"; "device_id"; "alert_key"]).

(** Lines 65-76: the value stored in [item[header]]. *)
Definition coerce (header : string) (value : option string) : M pyval :=
  try_except_classes
    (float_val ← py_float value;
     ret (VFloat float_val))
    [ValueError; TypeError]
    (if is_identifier header
     then ret (value_of value)
     else ret (VFloat 0.0%float)).

(** *** [run_query], lines 20-85 *)

(** How one iteration of the [while] loop ends. *)
Inductive step :=
| Break (status : string)
| ReturnFromLoop (r : query_result)
| Continue (status : string).

(** How the loop is left: by the [return] of line 40, or by [break] or
    a false condition, with the local [status] as it then is. *)
Inductive loop_exit :=
| LoopReturn (r : query_result)
| LoopEnd (status : option string).

(** Lines 32-42: the body of the loop up to [waited += 1]. *)
Definition poll_once (query_id : string) (waited : Z) : M step :=
  status_response ← call (EvGetQueryExecution query_id)
                         (get_query_execution athena query_id waited);
  query_execution ← getitem "QueryExecution" (QueryExecution status_response);
  status_dict ← getitem "Status" (Status query_execution);
  status ← getitem "State" (State status_dict);
  if String.eqb status "SUCCEEDED" then ret (Break status)
  else if bool_decide (status ∈ ["FAILED"; "CANCELLED"]) then
    let reason := default "Unknown" (StateChangeReason status_dict) in
    ret (ReturnFromLoop
           (ErrorDict ("Query " +:+ status +:+ ": " +:+ reason)))
  else
    emit (EvSleep 1);;
    ret (Continue status).

(** Lines 31-43: [while waited < max_wait_seconds]. The loop terminates
    because [max_wait_seconds - waited] decreases. *)
Equations? poll_loop (max_wait_seconds : Z) (query_id : string)
    (waited : Z) (status : option string) : M loop_exit
    by wf (Z.to_nat (max_wait_seconds - waited)) lt :=
poll_loop max_wait_seconds query_id waited status
    with decide (waited < max_wait_seconds) := {
  | right _ => ret (LoopEnd status)
  | left _ with poll_once query_id waited := {
    | (Raise e, t) => (Raise e, t)
    | (Return (Break s), t) => (Return (LoopEnd (Some s)), t)
    | (Return (ReturnFromLoop r), t) => (Return (LoopReturn r), t)
    | (Return (Continue s), t) =>
        after t (poll_loop max_wait_seconds query_id (waited + 1) (Some s))
    } }.
Proof. lia. Qed.

(** Line 57: [[h['VarCharValue'] for h in rows[0]['Data']]]. *)
Fixpoint header_names (cells : list Cell) : M (list string) :=
  match cells with
  | [] => ret []
  | h :: rest =>
      name ← getitem "VarCharValue" (VarCharValue h);
      names ← header_names rest;
      ret (name :: names)
  end.

(** Lines 61-76: [for i, cell in enumerate(row['Data'])], from index [i]
    on. *)
Fixpoint cells_loop (headers : list string) (i : nat) (cells : list Cell)
    (item : pydict) : M pydict :=
  match cells with
  | [] => ret item
  | cell :: rest =>
      let value := VarCharValue cell in
      header ← list_getitem headers i;
      v ← coerce header value;
      cells_loop headers (S i) rest (<[header := v]> item)
  end.

(** Lines 59-78: [for row in rows[1:]]. *)
Fixpoint rows_loop (headers : list string) (rows : list Row)
    (data : list pydict) : M (list pydict) :=
  match rows with
  | [] => ret data
  | row :: rest =>
      cells ← getitem "Data" (Data row);
      item ← cells_loop headers 0 cells ∅;
      rows_loop headers rest (data ++ [item])
  end.

(** Lines 50-81. *)
Definition fetch_results (query_id : string) : M query_result :=
  results ← call (EvGetQueryResults query_id)
                 (get_query_results athena query_id);
  result_set ← getitem "ResultSet" (ResultSet results);
  rows ← getitem "Rows" (Rows result_set);
  if bool_decide (length rows ≤ 1)%nat then ret (PyList [])
  else
    row0 ← list_getitem rows 0;
    cells0 ← getitem "Data" (Data row0);
    headers ← header_names cells0;
    data ← rows_loop headers (drop 1 rows) [];
    ret (PyList data).

(** Lines 45-81: what follows the loop. *)
Definition after_loop (query_id : string) (exit : loop_exit)
    : M query_result :=
  match exit with
  | LoopReturn r => ret r
  | LoopEnd status =>
      status ← read_local "status" status;
      if negb (String.eqb status "SUCCEEDED")
      then ret (ErrorDict "Query timeout")
      else fetch_results query_id
  end.

(** Lines 23-81: the body of the [try]. *)
Definition run_query_body (query : string) (max_wait_seconds : Z)
    : M query_result :=
  response ← call (EvStartQueryExecution query DATABASE OUTPUT_S3)
                  (start_query_execution athena query DATABASE OUTPUT_S3);
  query_id ← getitem "QueryExecutionId" (QueryExecutionId response);
  exit ← poll_loop max_wait_seconds query_id 0 None;
  after_loop query_id exit.

(** Lines 20-85. *)
Definition run_query (query : string) (max_wait_seconds : Z)
    : M query_result :=
  try_except (run_query_body query max_wait_seconds)
             (λ e, ret (ErrorDict (str e))).

(** *** The handlers, lines 89-290 *)

(** Lines 89-141; [now] is the value of [int(time.time())]. *)
Definition latest (now : Z) : M Response :=
  data ← run_query latest_query 30;
  if truthy data && negb (is_error data) then
    data ← append data (simulated_alert_row now);
    ret (jsonify (to_json data))
  else
    let data := [simulated_alert_row now] in
    ret (jsonify (JList data)).

(** [random.uniform(a, b)] at the [n]-th draw of a request, [round(x, 6)]
    and [int((utcnow() - timedelta(minutes=m)).timestamp())]. *)
Variable uniform : nat → float → float → float.
Variable round6 : float → float.
Variable timestamp_minutes_ago : Z → Z.

Definition devices : list string :=
  ["b8:27:eb:bf:9d:51"; "00:0f:00:70:91:0a"; "1c:bf:ce:15:ec:4d"].

(** Lines 152-171: the point of device number [j] at step [i]. *)
Definition co_trend_point (i j : nat) (device : string) : pydict :=
  let timestamp := timestamp_minutes_ago (50 - Z.of_nat i) in
  let draw := (3 * i + j)%nat in
  let base_co :=
    if String.eqb device "b8:27:eb:bf:9d:51" then
      if bool_decide (40 < i)%nat then uniform draw 0.120%float 0.1305%float
      else if bool_decide (30 < i)%nat then uniform draw 0.080%float 0.120%float
      else uniform draw 0.003%float 0.008%float
    else uniform draw 0.003%float 0.008%float in
  list_to_map [
    ("ts", VInt timestamp);
    ("device", VStr device);
    ("co", VFloat (round6 base_co)) ].

(** Lines 144-173. *)
Definition co_trend : M Response :=
  let data :=
    flat_map (λ i, imap (co_trend_point i) devices) (seq 0 50) in
  ret (jsonify (JList data)).

(** Lines 187-193, 207-213, 225-231, 243-249 and 261-267: the five
    aggregate handlers differ in their SQL text only. *)
Definition aggregate (query : string) : M Response :=
  data ← run_query query 30;
  if negb (truthy data) || is_error data then
    ret (jsonify (JList []))
  else
    ret (jsonify (to_json data)).

Definition avg_metrics : M Response := aggregate avg_metrics_query.
Definition max_metrics : M Response := aggregate max_metrics_query.
Definition alert_counts : M Response := aggregate alert_counts_query.
Definition humidity_co : M Response := aggregate humidity_co_query.
Definition temp_dist : M Response := aggregate temp_dist_query.

(** Lines 272-281 on the store [acknowledged_alerts], for a request of
    the documented interface. *)
Definition acknowledge_alert (request : request_json)
    (acknowledged_alerts : gset string) : M (Response * gset string) :=
  let alert_key := json_get "alert_key" request in
  match alert_key with
  | Some key =>
      if truthy_key alert_key then
        ret (jsonify (JDict (list_to_map [
                 ("success", VBool true);
                 ("acknowledged", VStr key) ])),
             {[ key ]} ∪ acknowledged_alerts)
      else
        ret (with_status (jsonify (JDict {[ "success" := VBool false ]})) 400,
             acknowledged_alerts)
  | None =>
      ret (with_status (jsonify (JDict {[ "success" := VBool false ]})) 400,
           acknowledged_alerts)
  end.

(** Lines 284-290. *)
Definition reset_alerts (acknowledged_alerts : gset string)
    : M (Response * gset string) :=
  ret (jsonify (JDict (list_to_map [
           ("success", VBool true);
           ("message", VStr "All alerts reset") ])),
       ∅).

(** A handler that leaves the store alone. *)
Definition stateless (h : M Response) (acknowledged_alerts : gset string)
    : M (Response * gset string) :=
  response ← h;
  ret (response, acknowledged_alerts).

(** The routing table of the [@app.route] decorators. *)
Definition route (ep : endpoint) (request : request_json) (now : Z)
    (acknowledged_alerts : gset string) : M (Response * gset string) :=
  match ep with
  | Latest => stateless (latest now) acknowledged_alerts
  | CoTrend => stateless co_trend acknowledged_alerts
  | AvgMetrics => stateless avg_metrics acknowledged_alerts
  | MaxMetrics => stateless max_metrics acknowledged_alerts
  | AlertCounts => stateless alert_counts acknowledged_alerts
  | HumidityCo => stateless humidity_co acknowledged_alerts
  | TempDist => stateless temp_dist acknowledged_alerts
  | AcknowledgeAlert => acknowledge_alert request acknowledged_alerts
  | ResetAlerts => reset_alerts acknowledged_alerts
  end.

(** The SQL text an endpoint hands to [run_query], for the six that call
    it. *)
Definition proxy_query (ep : endpoint) : option string :=
  match ep with
  | Latest => Some latest_query
  | AvgMetrics => Some avg_metrics_query
  | MaxMetrics => Some max_metrics_query
  | AlertCounts => Some alert_counts_query
  | HumidityCo => Some humidity_co_query
  | TempDist => Some temp_dist_query
  | CoTrend | AcknowledgeAlert | ResetAlerts => None
  end.

(** The response of the acknowledge endpoint to a request it refuses. *)
Definition refused : Response :=
  {| status_code := 400; body := JDict {[ "success" := VBool false ]} |}.

(** *** What the service is observed to do *)

(** The submission of [query] is accepted under [query_id]. *)
Definition submitted (query query_id : string) : Prop :=
  start_query_execution athena query DATABASE OUTPUT_S3 =
  Return {| QueryExecutionId := Some query_id |}.

(** The poll made after [waited] seconds sees [status]. *)
Definition observes (query_id : string) (waited : Z) (status : string)
    (reason : option string) : Prop :=
  get_query_execution athena query_id waited =
  Return (status_response status reason).

(** Every poll made before second [n] sees a pending status. *)
Definition pending_until (query_id : string) (n : Z) : Prop :=
  ∀ w, 0 ≤ w < n →
    ∃ status reason,
      observes query_id w status reason ∧ pending status = true.

(** Every field of every row of a list satisfies [P]. *)
Definition fields (P : pyval → Prop) (data : list pydict) : Prop :=
  Forall (map_Forall (λ _ v, P v)) data.

(** The value stored for cell [c] satisfies [P] under every header. *)
Definition stores (P : pyval → Prop) (c : Cell) : Prop :=
  ∀ header v t, coerce header (VarCharValue c) = (Return v, t) → P v.

(** No cell of the fetched result set is a NULL. *)
Definition no_null_cells : Prop :=
  ∀ query_id response result_set rows row cells c,
    get_query_results athena query_id = Return response →
    ResultSet response = Some result_set →
    Rows result_set = Some rows →
    row ∈ rows →
    Data row = Some cells →
    c ∈ cells →
    is_Some (VarCharValue c).

(** The poll of second [waited] answers with the state SUCCEEDED. *)
Definition saw_succeeded (query_id : string) (waited : Z) : Prop :=
  ∃ response query_execution status_dict,
    get_query_execution athena query_id waited = Return response ∧
    QueryExecution response = Some query_execution ∧
    Status query_execution = Some status_dict ∧
    State status_dict = Some "SUCCEEDED".

(** The fetch answers with the header row [headers] and the data rows
    [rows]. *)
Definition fetched (query_id : string) (headers : list string)
    (rows : list (list Cell)) : Prop :=
  get_query_results athena query_id =
  Return (results_response (map cell headers :: rows)).

(** [item] is the row [cells] read under [headers]: the field of a
    header is the value [coerce] stores for the cell of its column (of
    the last such column of the row, when a header occurs twice), and a
    header without a cell in the row is not a key. *)
Definition decodes (headers : list string) (cells : list Cell)
    (item : pydict) : Prop :=
  (∀ j header c,
     headers !! j = Some header → cells !! j = Some c →
     (∀ j', (j < j' < length cells)%nat → headers !! j' ≠ Some header) →
     ∃ v, coerce header (VarCharValue c) = ret v ∧
          item !! header = Some v) ∧
  (∀ header,
     (∀ j, (j < length cells)%nat → headers !! j ≠ Some header) →
     item !! header = None).

(** *** The routes on every request *)

(** Python's [set]: the store, [acknowledged_alerts.add(x)] for a
    hashable [x] and [acknowledged_alerts.clear()]. *)
Variable pyset : Type.
Variable set_add : pyset → json_scalar → pyset.
Variable set_clear : pyset → pyset.

(** Lines 272-281 on any request. [request_json] is what evaluating
    [request.json] gives: the parsed body, or the exception Flask raises
    for a body it does not accept. A body that is not a dict has no
    [get]; a list or a dict is not hashable (the wording of the two
    messages varies with the version of Python). *)
Definition acknowledge_alert_any (request_json : outcome json_value)
    (acknowledged_alerts : pyset) : M (Response * pyset) :=
  body ← eval request_json;
  alert_key ← match body with
              | JsObject members => ret (dict_get "alert_key" members)
              | _ =>
                  raise (Exn AttributeError
                           ("'" +:+ type_name body +:+
                            "' object has no attribute 'get'"))
              end;
  match alert_key with
  | Some v =>
      if value_truthy v then
        match v with
        | JsScalar x =>
            ret (jsonify (JDict (list_to_map [
                     ("success", VBool true);
                     ("acknowledged", pyval_of_scalar x) ])),
                 set_add acknowledged_alerts x)
        | _ =>
            raise (Exn TypeError
                     ("unhashable type: '" +:+ type_name v +:+ "'"))
        end
      else ret (refused, acknowledged_alerts)
  | None => ret (refused, acknowledged_alerts)
  end.

(** Lines 284-290. *)
Definition reset_alerts_any (acknowledged_alerts : pyset)
    : M (Response * pyset) :=
  ret (jsonify (JDict (list_to_map [
           ("success", VBool true);
           ("message", VStr "All alerts reset") ])),
       set_clear acknowledged_alerts).

(** A handler that leaves the store alone. *)
Definition stateless_any (h : M Response) (acknowledged_alerts : pyset)
    : M (Response * pyset) :=
  response ← h;
  ret (response, acknowledged_alerts).

(** The routing table on any request. *)
Definition route_any (ep : endpoint) (request_json : outcome json_value)
    (now : Z) (acknowledged_alerts : pyset) : M (Response * pyset) :=
  match ep with
  | Latest => stateless_any (latest now) acknowledged_alerts
  | CoTrend => stateless_any co_trend acknowledged_alerts
  | AvgMetrics => stateless_any avg_metrics acknowledged_alerts
  | MaxMetrics => stateless_any max_metrics acknowledged_alerts
  | AlertCounts => stateless_any alert_counts acknowledged_alerts
  | HumidityCo => stateless_any humidity_co acknowledged_alerts
  | TempDist => stateless_any temp_dist acknowledged_alerts
  | AcknowledgeAlert =>
      acknowledge_alert_any request_json acknowledged_alerts
  | ResetAlerts => reset_alerts_any acknowledged_alerts
  end.

(** The two sentences of the error-handling design as they are written.
    The first, read for all six endpoints that call the proxy: a failure
    of the proxy is answered 200 with the empty list. *)
Definition failure_answers_empty_list : Prop :=
  ∀ (ep : endpoint) (query : string) (request_json : outcome json_value)
    (now : Z) (acknowledged_alerts : pyset) (msg : string)
    (t : list event),
    proxy_query ep = Some query →
    run_query query 30 = (Return (ErrorDict msg), t) →
    route_any ep request_json now acknowledged_alerts =
    (Return (jsonify (JList []), acknowledged_alerts), t).

(** The second: a handler returns a status other than 200 only on the
    acknowledge route, and only when [alert_key] is missing (absent from
    the dict, or null). *)
Definition non_200_only_without_key : Prop :=
  ∀ (ep : endpoint) (request_json : outcome json_value) (now : Z)
    (acknowledged_alerts acknowledged_alerts' : pyset)
    (response : Response) (t : list event),
    route_any ep request_json now acknowledged_alerts =
      (Return (response, acknowledged_alerts'), t) →
    status_code response ≠ 200 →
    ep = AcknowledgeAlert ∧
    ∃ members,
      request_json = Return (JsObject members) ∧
      (dict_get "alert_key" members = None ∨
       dict_get "alert_key" members = Some (JsScalar JsNull)).

(** ** Laws of sequencing *)

Lemma after_after {A} (t1 t2 : list event) (m : M A) :
  after t1 (after t2 m) = after (t1 ++ t2) m.
Proof. unfold after. simpl. by rewrite app_assoc. Qed.

Lemma after_nil {A} (m : M A) : after [] m = m.
Proof. by destruct m. Qed.

Lemma after_pair {A} (t t' : list event) (r : outcome A) :
  after t (r, t') = (r, t ++ t').
Proof. reflexivity. Qed.

Lemma bind_return {A B} (a : A) (t : list event) (k : A → M B) :
  (Return a, t) ≫= k = after t (k a).
Proof. unfold mbind, M_bind, bind, after. by destruct (k a). Qed.

Lemma bind_raise {A B} (e : exn) (t : list event) (k : A → M B) :
  (Raise e, t) ≫= k = (Raise e, t).
Proof. reflexivity. Qed.

Lemma bind_ret {A B} (a : A) (k : A → M B) : ret a ≫= k = k a.
Proof. unfold ret. by rewrite bind_return, after_nil. Qed.

Lemma bind_after {A B} (t : list event) (m : M A) (k : A → M B) :
  after t m ≫= k = after t (m ≫= k).
Proof.
  destruct m as [[a | e] t']; rewrite after_pair.
  - by rewrite !bind_return, after_after.
  - by rewrite !bind_raise, after_pair.
Qed.

Lemma bind_call_return {A B} (ev : event) (a : A) (k : A → M B) :
  call ev (Return a) ≫= k = after [ev] (k a).
Proof. unfold call. by rewrite bind_return. Qed.

Lemma bind_call_raise {A B} (ev : event) (e : exn) (k : A → M B) :
  call ev (Raise e) ≫= k = (Raise e, [ev]).
Proof. reflexivity. Qed.

Lemma bind_getitem_some {A B} (key : string) (a : A) (k : A → M B) :
  getitem key (Some a) ≫= k = k a.
Proof. unfold getitem. by rewrite bind_ret. Qed.

Lemma try_except_after {A} (t : list event) (m : M A) (h : exn → M A) :
  try_except (after t m) h = after t (try_except m h).
Proof.
  destruct m as [[a | e] t']; unfold after, try_except; simpl;
    [reflexivity |].
  destruct (h e). simpl. by rewrite app_assoc.
Qed.

Lemma try_except_return {A} (a : A) (t : list event) (h : exn → M A) :
  try_except (Return a, t) h = (Return a, t).
Proof. reflexivity. Qed.

Lemma try_except_raise {A} (e : exn) (t : list event) (h : exn → M A) :
  try_except (Raise e, t) h = after t (h e).
Proof. unfold try_except, after. by destruct (h e). Qed.

(** A sequence that returns: both parts returned. *)
Lemma bind_inv {A B} (m : M A) (k : A → M B) (b : B) (t : list event) :
  m ≫= k = (Return b, t) →
  ∃ a t1 t2, m = (Return a, t1) ∧ k a = (Return b, t2) ∧ t = t1 ++ t2.
Proof.
  destruct m as [[a | e] t1]; [| rewrite bind_raise; discriminate].
  rewrite bind_return. destruct (k a) as [o t2] eqn:Hk.
  rewrite after_pair. intros [= -> <-]. by exists a, t1, t2.
Qed.

Lemma getitem_inv {A} (key : string) (field : option A) (a : A)
    (t : list event) :
  getitem key field = (Return a, t) → field = Some a.
Proof. destruct field; [by intros [= -> _] | discriminate]. Qed.

Create Rewrite HintDb pym.
Hint Rewrite @bind_return @bind_raise @bind_ret @bind_after
  @bind_call_return @bind_call_raise @bind_getitem_some
  @try_except_after @try_except_return @try_except_raise
  @after_after @after_pair : pym.

(** ** Properties of the loop *)

(** The loop, unfolded once. *)
Lemma poll_loop_iteration (max_wait_seconds : Z) (query_id : string)
    (waited : Z) (status : option string) :
  poll_loop max_wait_seconds query_id waited status =
  if decide (waited < max_wait_seconds) then
    match poll_once query_id waited with
    | (Raise e, t) => (Raise e, t)
    | (Return (Break s), t) => (Return (LoopEnd (Some s)), t)
    | (Return (ReturnFromLoop r), t) => (Return (LoopReturn r), t)
    | (Return (Continue s), t) =>
        after t (poll_loop max_wait_seconds query_id (waited + 1) (Some s))
    end
  else ret (LoopEnd status).
Proof.
  rewrite poll_loop_equation_1.
  destruct (decide (waited < max_wait_seconds)) as [Hlt | Hge]; simpl.
  - destruct (poll_once query_id waited) as [[[s | r | s] | e] t];
      reflexivity.
  - reflexivity.
Qed.

Lemma pending_not_succeeded (status : string) :
  pending status = true → String.eqb status "SUCCEEDED" = false.
Proof.
  unfold pending. intros H. apply andb_true_iff in H as [H _].
  by apply negb_true_iff in H.
Qed.

Lemma pending_not_failed (status : string) :
  pending status = true →
  bool_decide (status ∈ ["FAILED"; "CANCELLED"]) = false.
Proof.
  unfold pending. intros H. apply andb_true_iff in H as [_ H].
  by apply negb_true_iff in H.
Qed.

(** A poll that sees a pending status sleeps one second and goes on. *)
Lemma poll_once_pending (query_id : string) (waited : Z) (status : string)
    (reason : option string) :
  observes query_id waited status reason →
  pending status = true →
  poll_once query_id waited =
  (Return (Continue status), [EvGetQueryExecution query_id; EvSleep 1]).
Proof.
  intros Hobs Hpend. unfold poll_once, observes in *. rewrite Hobs.
  simpl. rewrite (pending_not_succeeded _ Hpend).
  rewrite (pending_not_failed _ Hpend). reflexivity.
Qed.

(** A poll that sees SUCCEEDED breaks without sleeping. *)
Lemma poll_once_succeeded (query_id : string) (waited : Z)
    (reason : option string) :
  observes query_id waited "SUCCEEDED" reason →
  poll_once query_id waited =
  (Return (Break "SUCCEEDED"), [EvGetQueryExecution query_id]).
Proof.
  intros Hobs. unfold poll_once, observes in *. rewrite Hobs. reflexivity.
Qed.

(** A poll that sees FAILED or CANCELLED returns the error dict without
    sleeping. *)
Lemma poll_once_failed (query_id : string) (waited : Z) (status : string)
    (reason : option string) :
  observes query_id waited status reason →
  status ∈ ["FAILED"; "CANCELLED"] →
  poll_once query_id waited =
  (Return (ReturnFromLoop
             (ErrorDict ("Query " +:+ status +:+ ": " +:+
                         default "Unknown" reason))),
   [EvGetQueryExecution query_id]).
Proof.
  intros Hobs Hin. unfold poll_once, observes in *. rewrite Hobs. simpl.
  assert (String.eqb status "SUCCEEDED" = false) as ->.
  { apply String.eqb_neq. intros ->.
    rewrite !elem_of_cons, elem_of_nil in Hin.
    destruct Hin as [? | [? | []]]; discriminate. }
  rewrite bool_decide_eq_true_2 by done. reflexivity.
Qed.

(** With the budget used up the loop ends and leaves [status] as it is. *)
Lemma poll_loop_exhausted (max_wait_seconds : Z) (query_id : string)
    (waited : Z) (status : option string) :
  max_wait_seconds ≤ waited →
  poll_loop max_wait_seconds query_id waited status = ret (LoopEnd status).
Proof.
  intros Hge. rewrite poll_loop_iteration.
  destruct (decide (waited < max_wait_seconds)); [lia | reflexivity].
Qed.

Lemma polling_S (query_id : string) (n : nat) :
  polling query_id (S n) =
  [EvGetQueryExecution query_id; EvSleep 1] ++ polling query_id n.
Proof. reflexivity. Qed.

(** While the polls see a pending status the loop polls and sleeps:
    [n] pending polls from second [waited] on take the loop to second
    [waited + n], with the last status seen in [status]. *)
Lemma poll_loop_pending (max_wait_seconds : Z) (query_id : string)
    (n : nat) :
  ∀ (waited : Z) (status : option string),
    (∀ w, waited ≤ w < waited + Z.of_nat n →
       ∃ s reason, observes query_id w s reason ∧ pending s = true) →
    waited + Z.of_nat n ≤ max_wait_seconds →
    ∃ status',
      poll_loop max_wait_seconds query_id waited status =
      after (polling query_id n)
            (poll_loop max_wait_seconds query_id (waited + Z.of_nat n)
                       status') ∧
      match n with
      | O => status' = status
      | S _ => ∃ s, status' = Some s ∧ pending s = true
      end.
Proof.
  induction n as [| n IH]; intros waited status Hpend Hle.
  - exists status. split; [| reflexivity].
    rewrite after_nil. f_equal. lia.
  - destruct (Hpend waited) as (s & reason & Hobs & Hs); [lia |].
    destruct (IH (waited + 1) (Some s)) as (status' & Hloop & Hstatus').
    { intros w Hw. apply Hpend. lia. }
    { lia. }
    exists status'. split.
    + rewrite poll_loop_iteration.
      destruct (decide (waited < max_wait_seconds)) as [_ | Hge]; [| lia].
      replace (waited + 1 + Z.of_nat n) with (waited + Z.of_nat (S n))
        in Hloop by lia.
      rewrite (poll_once_pending _ _ _ _ Hobs Hs), Hloop, after_after.
      reflexivity.
    + destruct n as [| n'].
      * exists s. by subst status'.
      * exact Hstatus'.
Qed.

Lemma slept_app (t1 t2 : list event) :
  slept (t1 ++ t2) = slept t1 + slept t2.
Proof.
  induction t1 as [| [] t1 IH]; simpl; lia.
Qed.

Lemma polls_app (t1 t2 : list event) :
  polls (t1 ++ t2) = (polls t1 + polls t2)%nat.
Proof.
  induction t1 as [| [] t1 IH]; simpl; lia.
Qed.

Lemma slept_polling (query_id : string) (n : nat) :
  slept (polling query_id n) = Z.of_nat n.
Proof.
  induction n as [| n IH]; [reflexivity |].
  rewrite polling_S, slept_app, IH. simpl. lia.
Qed.

Lemma polls_polling (query_id : string) (n : nat) :
  polls (polling query_id n) = n.
Proof.
  induction n as [| n IH]; [reflexivity |].
  rewrite polling_S, polls_app, IH. reflexivity.
Qed.

(** ** Properties of [run_query] *)

(** After an accepted submission the proxy polls and then runs the code
    that follows the loop. *)
Lemma run_query_submitted (query query_id : string) (max_wait_seconds : Z) :
  submitted query query_id →
  run_query query max_wait_seconds =
  after [EvStartQueryExecution query DATABASE OUTPUT_S3]
    (try_except
       (exit ← poll_loop max_wait_seconds query_id 0 None;
        after_loop query_id exit)
       (λ e, ret (ErrorDict (str e)))).
Proof.
  intros Hsub. unfold run_query, run_query_body. rewrite Hsub.
  autorewrite with pym. cbn [QueryExecutionId].
  by autorewrite with pym.
Qed.

(** Pending polls up to second [k], with [k] within the budget, take the
    run to the poll of second [k]. *)
Lemma run_query_pending (query query_id : string)
    (max_wait_seconds k : Z) :
  submitted query query_id →
  0 ≤ k ≤ max_wait_seconds →
  pending_until query_id k →
  ∃ status,
    run_query query max_wait_seconds =
    after (EvStartQueryExecution query DATABASE OUTPUT_S3 ::
           polling query_id (Z.to_nat k))
      (try_except
         (exit ← poll_loop max_wait_seconds query_id k status;
          after_loop query_id exit)
         (λ e, ret (ErrorDict (str e)))) ∧
    (0 < k → ∃ s, status = Some s ∧ pending s = true) ∧
    (k = 0 → status = None).
Proof.
  intros Hsub Hk Hpend.
  destruct (poll_loop_pending max_wait_seconds query_id (Z.to_nat k) 0 None)
    as (status & Hloop & Hstatus).
  { intros w Hw. apply Hpend. lia. }
  { lia. }
  replace (0 + Z.of_nat (Z.to_nat k)) with k in Hloop by lia.
  exists status. split; [| split].
  - rewrite (run_query_submitted _ _ _ Hsub), Hloop.
    by autorewrite with pym.
  - intros Hpos. destruct (Z.to_nat k) eqn:E; [lia | exact Hstatus].
  - intros ->. exact Hstatus.
Qed.

(** With no budget the loop body never runs and [status] is read
    unbound at line 45; the [except] clause turns that into the result. *)
Lemma run_query_no_budget (query query_id : string)
    (max_wait_seconds : Z) :
  submitted query query_id →
  max_wait_seconds ≤ 0 →
  run_query query max_wait_seconds =
  (Return (ErrorDict (str (unbound_local_error "status"))),
   [EvStartQueryExecution query DATABASE OUTPUT_S3]).
Proof.
  intros Hsub Hmax. rewrite (run_query_submitted _ _ _ Hsub).
  rewrite poll_loop_exhausted by lia.
  autorewrite with pym. reflexivity.
Qed.

(** For a positive budget that every poll finds pending, the proxy polls
    and sleeps [max_wait_seconds] times and then reports the timeout. *)
Lemma run_query_timeout (query query_id : string) (max_wait_seconds : Z) :
  submitted query query_id →
  0 < max_wait_seconds →
  pending_until query_id max_wait_seconds →
  run_query query max_wait_seconds =
  (Return (ErrorDict "Query timeout"),
   EvStartQueryExecution query DATABASE OUTPUT_S3 ::
   polling query_id (Z.to_nat max_wait_seconds)) ∧
  slept (run_query query max_wait_seconds).2 = max_wait_seconds ∧
  polls (run_query query max_wait_seconds).2 = Z.to_nat max_wait_seconds.
Proof.
  intros Hsub Hmax Hpend.
  destruct (run_query_pending query query_id max_wait_seconds
              max_wait_seconds Hsub ltac:(lia) Hpend)
    as (status & Hrun & Hstatus & _).
  destruct (Hstatus Hmax) as (s & -> & Hs).
  assert (run_query query max_wait_seconds =
          (Return (ErrorDict "Query timeout"),
           EvStartQueryExecution query DATABASE OUTPUT_S3 ::
           polling query_id (Z.to_nat max_wait_seconds))) as Heq.
  { rewrite Hrun, poll_loop_exhausted by lia.
    autorewrite with pym. unfold after_loop, read_local.
    autorewrite with pym. rewrite (pending_not_succeeded _ Hs). simpl.
    unfold ret. autorewrite with pym. by rewrite app_nil_r. }
  split; [exact Heq |].
  rewrite Heq. simpl. rewrite slept_polling, polls_polling. lia.
Qed.

(** C6: a poll that sees FAILED or CANCELLED at second [k] of the budget,
    after pending polls only, makes the proxy return the failure built
    from the status and its [StateChangeReason] ("Unknown" when the
    service gives none) right after that poll: the proxy has slept [k]
    seconds, fewer than the budget, and neither sleeps nor polls again. *)
Theorem run_query_fails_at_once (query query_id : string)
    (max_wait_seconds k : Z) (status : string) (reason : option string) :
  submitted query query_id →
  0 ≤ k < max_wait_seconds →
  pending_until query_id k →
  observes query_id k status reason →
  status ∈ ["FAILED"; "CANCELLED"] →
  run_query query max_wait_seconds =
  (Return (ErrorDict ("Query " +:+ status +:+ ": " +:+
                      default "Unknown" reason)),
   EvStartQueryExecution query DATABASE OUTPUT_S3 ::
   polling query_id (Z.to_nat k) ++ [EvGetQueryExecution query_id]) ∧
  slept (run_query query max_wait_seconds).2 = k ∧
  slept (run_query query max_wait_seconds).2 < max_wait_seconds.
Proof.
  intros Hsub Hk Hpend Hobs Hin.
  destruct (run_query_pending query query_id max_wait_seconds k
              Hsub ltac:(lia) Hpend) as (st & Hrun & _).
  assert (run_query query max_wait_seconds =
          (Return (ErrorDict ("Query " +:+ status +:+ ": " +:+
                              default "Unknown" reason)),
           EvStartQueryExecution query DATABASE OUTPUT_S3 ::
           polling query_id (Z.to_nat k) ++
           [EvGetQueryExecution query_id])) as Heq.
  { rewrite Hrun, poll_loop_iteration.
    destruct (decide (k < max_wait_seconds)) as [_ | Hge]; [| lia].
    rewrite (poll_once_failed _ _ _ _ Hobs Hin).
    autorewrite with pym. unfold after_loop, ret.
    autorewrite with pym. by rewrite app_nil_r. }
  assert (slept (run_query query max_wait_seconds).2 = k) as Hslept.
  { rewrite Heq. simpl. rewrite slept_app, slept_polling. simpl. lia. }
  repeat split; [exact Heq | exact Hslept | lia].
Qed.

(** C5: when a poll within the budget sees SUCCEEDED and the result set
    holds the header row only, the proxy returns the empty list, not an
    error dict. *)
Theorem run_query_header_only (query query_id : string)
    (max_wait_seconds k : Z) (reason : option string) (header_row : Row) :
  submitted query query_id →
  0 ≤ k < max_wait_seconds →
  pending_until query_id k →
  observes query_id k "SUCCEEDED" reason →
  get_query_results athena query_id =
    Return {| ResultSet := Some {| Rows := Some [header_row] |} |} →
  run_query query max_wait_seconds =
  (Return (PyList []),
   EvStartQueryExecution query DATABASE OUTPUT_S3 ::
   polling query_id (Z.to_nat k) ++
   [EvGetQueryExecution query_id; EvGetQueryResults query_id]).
Proof.
  intros Hsub Hk Hpend Hobs Hfetch.
  destruct (run_query_pending query query_id max_wait_seconds k
              Hsub ltac:(lia) Hpend) as (st & Hrun & _).
  rewrite Hrun, poll_loop_iteration.
  destruct (decide (k < max_wait_seconds)) as [_ | Hge]; [| lia].
  rewrite (poll_once_succeeded _ _ _ Hobs).
  autorewrite with pym. unfold after_loop, read_local.
  autorewrite with pym. simpl negb. cbv iota.
  unfold fetch_results. rewrite Hfetch.
  autorewrite with pym. cbn [ResultSet Rows].
  autorewrite with pym. simpl.
  unfold ret. autorewrite with pym.
  by rewrite app_nil_r, <- app_assoc.
Qed.

(** [run_query] as a returned value and a trace. *)
Lemma run_query_returns (query : string) (max_wait_seconds : Z) :
  ∃ r t, run_query query max_wait_seconds = (Return r, t).
Proof.
  unfold run_query.
  destruct (run_query_body query max_wait_seconds) as [[r | e] t].
  - by exists r, t.
  - exists (ErrorDict (str e)), t. rewrite try_except_raise.
    unfold ret. by rewrite after_pair, app_nil_r.
Qed.

(** An exception of the body becomes the error dict of its message. *)
Lemma run_query_caught (query : string) (max_wait_seconds : Z) (e : exn)
    (t : list event) :
  run_query_body query max_wait_seconds = (Raise e, t) →
  run_query query max_wait_seconds = (Return (ErrorDict (str e)), t).
Proof.
  intros Hbody. unfold run_query. rewrite Hbody, try_except_raise.
  unfold ret. by rewrite after_pair, app_nil_r.
Qed.

(** The submission raises. *)
Lemma run_query_submission_raises (query : string) (max_wait_seconds : Z)
    (e : exn) :
  start_query_execution athena query DATABASE OUTPUT_S3 = Raise e →
  run_query query max_wait_seconds =
  (Return (ErrorDict (str e)),
   [EvStartQueryExecution query DATABASE OUTPUT_S3]).
Proof.
  intros Hstart. apply run_query_caught.
  unfold run_query_body. by rewrite Hstart.
Qed.

(** The poll of second [k] raises, after pending polls. *)
Lemma run_query_poll_raises (query query_id : string)
    (max_wait_seconds k : Z) (e : exn) :
  submitted query query_id →
  0 ≤ k < max_wait_seconds →
  pending_until query_id k →
  get_query_execution athena query_id k = Raise e →
  run_query query max_wait_seconds =
  (Return (ErrorDict (str e)),
   EvStartQueryExecution query DATABASE OUTPUT_S3 ::
   polling query_id (Z.to_nat k) ++ [EvGetQueryExecution query_id]).
Proof.
  intros Hsub Hk Hpend Hpoll.
  destruct (run_query_pending query query_id max_wait_seconds k
              Hsub ltac:(lia) Hpend) as (st & Hrun & _).
  rewrite Hrun, poll_loop_iteration.
  destruct (decide (k < max_wait_seconds)) as [_ | Hge]; [| lia].
  unfold poll_once. rewrite Hpoll. autorewrite with pym.
  unfold ret. autorewrite with pym. by rewrite app_nil_r.
Qed.

(** The fetch raises, after the poll of second [k] saw SUCCEEDED. *)
Lemma run_query_fetch_raises (query query_id : string)
    (max_wait_seconds k : Z) (reason : option string) (e : exn) :
  submitted query query_id →
  0 ≤ k < max_wait_seconds →
  pending_until query_id k →
  observes query_id k "SUCCEEDED" reason →
  get_query_results athena query_id = Raise e →
  run_query query max_wait_seconds =
  (Return (ErrorDict (str e)),
   EvStartQueryExecution query DATABASE OUTPUT_S3 ::
   polling query_id (Z.to_nat k) ++
   [EvGetQueryExecution query_id; EvGetQueryResults query_id]).
Proof.
  intros Hsub Hk Hpend Hobs Hfetch.
  destruct (run_query_pending query query_id max_wait_seconds k
              Hsub ltac:(lia) Hpend) as (st & Hrun & _).
  rewrite Hrun, poll_loop_iteration.
  destruct (decide (k < max_wait_seconds)) as [_ | Hge]; [| lia].
  rewrite (poll_once_succeeded _ _ _ Hobs).
  autorewrite with pym. unfold after_loop, read_local.
  autorewrite with pym. simpl negb. cbv iota.
  unfold fetch_results. rewrite Hfetch.
  autorewrite with pym. unfold ret. autorewrite with pym.
  by rewrite app_nil_r, <- app_assoc.
Qed.

(** C4: [run_query] returns a value whatever the service does; an
    exception raised anywhere in the body of its [try] becomes the error
    dict that carries [str(e)], and so in particular when the submission
    raises, when a poll raises and when the fetch raises. *)
Theorem run_query_never_raises (query : string) (max_wait_seconds : Z) :
  (∃ r t, run_query query max_wait_seconds = (Return r, t)) ∧
  (∀ e t, run_query_body query max_wait_seconds = (Raise e, t) →
          run_query query max_wait_seconds =
          (Return (ErrorDict (str e)), t)) ∧
  (∀ e, start_query_execution athena query DATABASE OUTPUT_S3 = Raise e →
        (run_query query max_wait_seconds).1 =
        Return (ErrorDict (str e))) ∧
  (∀ query_id k e,
     submitted query query_id →
     0 ≤ k < max_wait_seconds →
     pending_until query_id k →
     get_query_execution athena query_id k = Raise e →
     (run_query query max_wait_seconds).1 = Return (ErrorDict (str e))) ∧
  (∀ query_id k reason e,
     submitted query query_id →
     0 ≤ k < max_wait_seconds →
     pending_until query_id k →
     observes query_id k "SUCCEEDED" reason →
     get_query_results athena query_id = Raise e →
     (run_query query max_wait_seconds).1 = Return (ErrorDict (str e))).
Proof.
  split; [apply run_query_returns |].
  split; [apply run_query_caught |].
  split; [| split].
  - intros e He. by rewrite (run_query_submission_raises _ _ _ He).
  - intros query_id k e Hsub Hk Hpend He.
    by rewrite (run_query_poll_raises _ _ _ _ _ Hsub Hk Hpend He).
  - intros query_id k reason e Hsub Hk Hpend Hobs He.
    by rewrite (run_query_fetch_raises _ _ _ _ _ _ Hsub Hk Hpend Hobs He).
Qed.

(** ** Properties of the coercion *)

Lemma is_identifier_true (header : string) :
  is_identifier header = true ↔
  header ∈ ["device"; "device_id"; "alert_key"].
Proof. unfold is_identifier. apply bool_decide_eq_true. Qed.


(** What [coerce] stores, by cases on the parse. *)
Lemma coerce_cases (header : string) (value : option string) :
  coerce header value =
  ret match value with
      | Some s =>
          match float_of_string s with
          | Some f => VFloat f
          | None => if is_identifier header then VStr s else VFloat 0.0%float
          end
      | None => if is_identifier header then VNone else VFloat 0.0%float
      end.
Proof.
  unfold coerce, py_float.
  destruct value as [s |].
  - destruct (float_of_string s) as [f |].
    + by rewrite bind_ret.
    + unfold raise. rewrite bind_raise. simpl.
      by destruct (is_identifier header).
  - unfold raise. rewrite bind_raise. simpl.
    by destruct (is_identifier header).
Qed.



(** A cell without a value under an identifier header stores [None]. *)
Lemma coerce_missing_identifier (header : string) :
  header ∈ ["device"; "device_id"; "alert_key"] →
  coerce header None = ret VNone.
Proof.
  intros Hid. rewrite coerce_cases.
  apply is_identifier_true in Hid. by rewrite Hid.
Qed.

(** One step of the loop over the cells: the coerced value is the field
    of the item. *)
Lemma cells_loop_cons (headers : list string) (i : nat) (cell : Cell)
    (rest : list Cell) (item : pydict) (header : string) (v : pyval) :
  headers !! i = Some header →
  coerce header (VarCharValue cell) = ret v →
  cells_loop headers i (cell :: rest) item =
  cells_loop headers (S i) rest (<[header := v]> item).
Proof.
  intros Hheader Hv. simpl. unfold list_getitem. rewrite Hheader.
  by rewrite bind_ret, Hv, bind_ret.
Qed.

(** ** The kinds of value in a returned row *)

(** What [coerce] stores is a float or a string, or [None] for a NULL
    cell under an identifier header. *)
Lemma coerce_kind (header : string) (value : option string) (v : pyval)
    (t : list event) :
  coerce header value = (Return v, t) →
  float_or_string v ∨
  (v = VNone ∧ value = None ∧
   header ∈ ["device"; "device_id"; "alert_key"]).
Proof.
  rewrite coerce_cases. intros [= <- _].
  destruct value as [s |].
  - left. destruct (float_of_string s); [done |].
    by destruct (is_identifier header).
  - destruct (is_identifier header) eqn:Hid; [| by left].
    right. by apply is_identifier_true in Hid.
Qed.

Lemma coerce_kind_value (header s : string) (v : pyval) (t : list event) :
  coerce header (Some s) = (Return v, t) → float_or_string v.
Proof.
  intros Hv. by destruct (coerce_kind _ _ _ _ Hv) as [? | (_ & [=] & _)].
Qed.

Section Fields.

Variable P : pyval → Prop.

Lemma cells_loop_fields (headers : list string) (cells : list Cell) :
  ∀ (i : nat) (item item' : pydict) (t : list event),
    Forall (stores P) cells →
    map_Forall (λ _ v, P v) item →
    cells_loop headers i cells item = (Return item', t) →
    map_Forall (λ _ v, P v) item'.
Proof.
  induction cells as [| c rest IH]; intros i item item' t Hcells Hitem.
  - by intros [= <- _].
  - simpl. intros Hloop.
    apply Forall_cons in Hcells as [Hc Hrest].
    apply bind_inv in Hloop as (header & t1 & t2 & _ & Hloop & _).
    apply bind_inv in Hloop as (v & t3 & t4 & Hv & Hloop & _).
    apply (IH _ _ _ _ Hrest) in Hloop; [done |].
    apply map_Forall_insert_2; [| done]. by apply (Hc header v t3).
Qed.

Lemma rows_loop_fields (headers : list string) (rows : list Row) :
  ∀ (data data' : list pydict) (t : list event),
    Forall (λ row, ∀ cells, Data row = Some cells → Forall (stores P) cells)
           rows →
    fields P data →
    rows_loop headers rows data = (Return data', t) →
    fields P data'.
Proof.
  induction rows as [| row rest IH]; intros data data' t Hrows Hdata.
  - by intros [= <- _].
  - simpl. intros Hloop.
    apply Forall_cons in Hrows as [Hrow Hrest].
    apply bind_inv in Hloop as (cells & t1 & t2 & Hcells & Hloop & _).
    apply getitem_inv in Hcells.
    apply bind_inv in Hloop as (item & t3 & t4 & Hitem & Hloop & _).
    apply (IH _ _ _ Hrest) in Hloop; [done |].
    apply Forall_app. split; [done |].
    apply Forall_singleton.
    eapply cells_loop_fields; [by apply Hrow | | exact Hitem].
    apply map_Forall_empty.
Qed.

Lemma fetch_results_fields (query_id : string) (data : list pydict)
    (t : list event) :
  (∀ response result_set rows row cells,
     get_query_results athena query_id = Return response →
     ResultSet response = Some result_set →
     Rows result_set = Some rows →
     row ∈ rows →
     Data row = Some cells →
     Forall (stores P) cells) →
  fetch_results query_id = (Return (PyList data), t) →
  fields P data.
Proof.
  intros Hcells. unfold fetch_results. intros Hfetch.
  apply bind_inv in Hfetch as (response & t1 & t2 & Hresp & Hfetch & _).
  unfold call in Hresp. injection Hresp as Hresp _.
  apply bind_inv in Hfetch as (result_set & t3 & t4 & Hrs & Hfetch & _).
  apply getitem_inv in Hrs.
  apply bind_inv in Hfetch as (rows & t5 & t6 & Hrows & Hfetch & _).
  apply getitem_inv in Hrows.
  destruct (bool_decide (length rows ≤ 1)%nat).
  - injection Hfetch as <- _. apply Forall_nil_2.
  - apply bind_inv in Hfetch as (row0 & t7 & t8 & _ & Hfetch & _).
    apply bind_inv in Hfetch as (cells0 & t9 & t10 & _ & Hfetch & _).
    apply bind_inv in Hfetch as (headers & t11 & t12 & _ & Hfetch & _).
    apply bind_inv in Hfetch as (data' & t13 & t14 & Hloop & Hret & _).
    injection Hret as -> _.
    eapply rows_loop_fields; [| apply Forall_nil_2 | exact Hloop].
    apply Forall_forall. intros row Hrow cells Hdata.
    apply (Hcells response result_set rows row cells); try done.
    by apply (subseteq_drop 1 rows).
Qed.

End Fields.

(** The [return] inside the loop returns an error dict. *)
Lemma poll_once_return (query_id : string) (waited : Z) (r : query_result)
    (t : list event) :
  poll_once query_id waited = (Return (ReturnFromLoop r), t) →
  ∃ msg, r = ErrorDict msg.
Proof.
  unfold poll_once. intros Hpoll.
  apply bind_inv in Hpoll as (response & t1 & t2 & _ & Hpoll & _).
  apply bind_inv in Hpoll as (qe & t3 & t4 & _ & Hpoll & _).
  apply bind_inv in Hpoll as (sd & t5 & t6 & _ & Hpoll & _).
  apply bind_inv in Hpoll as (status & t7 & t8 & _ & Hpoll & _).
  destruct (String.eqb status "SUCCEEDED"); [discriminate |].
  destruct (bool_decide (status ∈ ["FAILED"; "CANCELLED"])).
  - injection Hpoll as <- _. by eexists.
  - apply bind_inv in Hpoll as (u & t9 & t10 & _ & Hpoll & _).
    discriminate.
Qed.

Lemma poll_loop_return (max_wait_seconds : Z) (query_id : string)
    (n : nat) :
  ∀ (waited : Z) (status : option string) (r : query_result)
    (t : list event),
    Z.to_nat (max_wait_seconds - waited) = n →
    poll_loop max_wait_seconds query_id waited status =
      (Return (LoopReturn r), t) →
    ∃ msg, r = ErrorDict msg.
Proof.
  induction n as [| n IH]; intros waited status r t Hn;
    rewrite poll_loop_iteration;
    destruct (decide (waited < max_wait_seconds)) as [Hlt | Hge];
    try lia; try discriminate.
  destruct (poll_once query_id waited) as [[[s | r' | s] | e] t'] eqn:Hpoll;
    try discriminate.
  - intros [= <- _]. by apply (poll_once_return _ _ _ _ Hpoll).
  - destruct (poll_loop max_wait_seconds query_id (waited + 1) (Some s))
      as [o t''] eqn:Hloop.
    rewrite after_pair. intros [= -> _].
    apply (IH (waited + 1) (Some s) r t''); [lia | exact Hloop].
Qed.

(** Every field of every row [run_query] returns satisfies [P] when the
    value stored for each fetched cell does. *)
Lemma run_query_fields (P : pyval → Prop) (query : string)
    (max_wait_seconds : Z) (data : list pydict) (t : list event) :
  (∀ query_id response result_set rows row cells,
     get_query_results athena query_id = Return response →
     ResultSet response = Some result_set →
     Rows result_set = Some rows →
     row ∈ rows →
     Data row = Some cells →
     Forall (stores P) cells) →
  run_query query max_wait_seconds = (Return (PyList data), t) →
  fields P data.
Proof.
  intros Hcells. unfold run_query.
  destruct (run_query_body query max_wait_seconds) as [[r | e] t'] eqn:Hbody.
  - rewrite try_except_return. intros [= -> ->].
    unfold run_query_body in Hbody.
    apply bind_inv in Hbody as (response & t1 & t2 & _ & Hbody & _).
    apply bind_inv in Hbody as (query_id & t3 & t4 & _ & Hbody & _).
    apply bind_inv in Hbody as (exit & t5 & t6 & Hloop & Hafter & _).
    destruct exit as [r | status]; simpl in Hafter.
    + injection Hafter as -> _.
      by destruct (poll_loop_return _ _ _ _ _ _ _ eq_refl Hloop).
    + apply bind_inv in Hafter as (s & t7 & t8 & _ & Hafter & _).
      destruct (negb (String.eqb s "SUCCEEDED")); [discriminate |].
      eapply fetch_results_fields; [| exact Hafter].
      intros. by eapply Hcells.
  - rewrite try_except_raise. unfold ret. rewrite after_pair. discriminate.
Qed.

(** Whatever the service does, a field of a returned row is a float, a
    string or [None]. *)
Lemma run_query_fields_or_none (query : string) (max_wait_seconds : Z)
    (data : list pydict) (t : list event) :
  run_query query max_wait_seconds = (Return (PyList data), t) →
  fields (λ v, float_or_string v ∨ v = VNone) data.
Proof.
  apply run_query_fields. intros. apply Forall_forall.
  intros c _ header v t' Hv.
  destruct (coerce_kind _ _ _ _ Hv) as [? | (? & _)]; [by left | by right].
Qed.

(** When the service sends no NULL cell, every field of a returned row is
    a float or a string. *)
Lemma run_query_fields_no_null (query : string) (max_wait_seconds : Z)
    (data : list pydict) (t : list event) :
  no_null_cells →
  run_query query max_wait_seconds = (Return (PyList data), t) →
  fields float_or_string data.
Proof.
  intros Hnull. apply run_query_fields.
  intros query_id response result_set rows row cells Hresp Hrs Hrows Hrow
    Hdata.
  apply Forall_forall. intros c Hc header v t' Hv.
  destruct (Hnull _ _ _ _ _ _ c Hresp Hrs Hrows Hrow Hdata Hc) as [s Hs].
  rewrite Hs in Hv. by apply (coerce_kind_value _ _ _ _ Hv).
Qed.

(** ** Properties of the handlers *)

Lemma simulated_alert_row_device (now : Z) :
  simulated_alert_row now !! "device" = Some (VStr "b8:27:eb:bf:9d:51").
Proof. reflexivity. Qed.

Lemma simulated_alert_row_co (now : Z) :
  simulated_alert_row now !! "co" = Some (VFloat 0.1305%float).
Proof. reflexivity. Qed.

(** What [latest] answers, by cases on what [run_query] returned. *)
Lemma latest_cases (now : Z) (data : query_result) (t : list event) :
  run_query latest_query 30 = (Return data, t) →
  latest now =
  (Return (jsonify (JList match data with
                          | PyList (row :: rows) =>
                              (row :: rows) ++ [simulated_alert_row now]
                          | PyList [] | ErrorDict _ =>
                              [simulated_alert_row now]
                          end)), t).
Proof.
  intros Hrun. unfold latest. rewrite Hrun, bind_return.
  destruct data as [[| row rows] | msg]; simpl;
    unfold ret; autorewrite with pym; by rewrite ?app_nil_r.
Qed.

(** C8: whatever the service does, [latest] answers 200 with a list that
    holds a record of device "b8:27:eb:bf:9d:51" and co 0.1305. *)
Theorem latest_includes_simulated_alert (now : Z) :
  ∃ (l : list pydict) (t : list event) (row : pydict),
    latest now = (Return {| status_code := 200; body := JList l |}, t) ∧
    row ∈ l ∧
    row !! "device" = Some (VStr "b8:27:eb:bf:9d:51") ∧
    row !! "co" = Some (VFloat 0.1305%float).
Proof.
  destruct (run_query_returns latest_query 30) as (data & t & Hrun).
  rewrite (latest_cases now data t Hrun).
  eexists _, t, (simulated_alert_row now).
  split; [reflexivity |].
  split; [| split; [apply simulated_alert_row_device
                   | apply simulated_alert_row_co]].
  destruct data as [[| row rows] | msg].
  - apply list_elem_of_singleton. reflexivity.
  - apply elem_of_app. right. apply list_elem_of_singleton. reflexivity.
  - apply list_elem_of_singleton. reflexivity.
Qed.

(** What an aggregate handler answers. *)
Lemma aggregate_cases (query : string) (data : query_result)
    (t : list event) :
  run_query query 30 = (Return data, t) →
  aggregate query =
  (Return (jsonify (JList match data with
                          | PyList rows => rows
                          | ErrorDict _ => []
                          end)), t).
Proof.
  intros Hrun. unfold aggregate. rewrite Hrun, bind_return.
  destruct data as [[| row rows] | msg]; simpl;
    unfold ret; autorewrite with pym; by rewrite ?app_nil_r.
Qed.

(** C9: a request whose JSON object has no [alert_key], or has [null]
    there, is answered 400 and the store is as it was. *)
Theorem acknowledge_alert_without_key (request : request_json)
    (acknowledged_alerts : gset string) :
  request !! "alert_key" = None ∨ request !! "alert_key" = Some JNull →
  acknowledge_alert request acknowledged_alerts =
    ret (refused, acknowledged_alerts) ∧
  status_code refused ≠ 200.
Proof.
  intros Hlack. split; [| done].
  unfold acknowledge_alert, json_get.
  by destruct Hlack as [-> | ->].
Qed.

(** The acknowledge endpoint, by cases on the truth value of the key. *)
Lemma acknowledge_alert_cases (request : request_json)
    (acknowledged_alerts : gset string) :
  acknowledge_alert request acknowledged_alerts =
  match json_get "alert_key" request with
  | Some key =>
      if negb (String.eqb key "") then
        ret (jsonify (JDict (list_to_map [
                 ("success", VBool true);
                 ("acknowledged", VStr key) ])),
             {[ key ]} ∪ acknowledged_alerts)
      else ret (refused, acknowledged_alerts)
  | None => ret (refused, acknowledged_alerts)
  end.
Proof.
  unfold acknowledge_alert.
  by destruct (json_get "alert_key" request) as [key |].
Qed.

Lemma stateless_return (h : M Response) (response : Response)
    (t : list event) (acknowledged_alerts : gset string) :
  h = (Return response, t) →
  stateless h acknowledged_alerts =
  (Return (response, acknowledged_alerts), t).
Proof.
  intros ->. unfold stateless. rewrite bind_return.
  unfold ret. by rewrite after_pair, app_nil_r.
Qed.

(** An endpoint that calls the proxy answers 200 and leaves the store
    alone. *)
Lemma route_proxy_endpoint (ep : endpoint) (query : string)
    (request : request_json) (now : Z) (acknowledged_alerts : gset string)
    (data : query_result) (t : list event) :
  proxy_query ep = Some query →
  run_query query 30 = (Return data, t) →
  route ep request now acknowledged_alerts =
  (Return
     (jsonify (JList match ep, data with
                     | Latest, PyList (row :: rows) =>
                         (row :: rows) ++ [simulated_alert_row now]
                     | Latest, _ => [simulated_alert_row now]
                     | _, PyList rows => rows
                     | _, ErrorDict _ => []
                     end),
      acknowledged_alerts), t).
Proof.
  intros Hquery Hrun.
  destruct ep; simplify_eq/=; apply stateless_return;
    first [ rewrite (latest_cases _ _ _ Hrun)
          | unfold avg_metrics, max_metrics, alert_counts, humidity_co,
              temp_dist; rewrite (aggregate_cases _ _ _ Hrun) ];
    by destruct data as [[| row rows] | msg].
Qed.

(** ** The trace of a run *)

Lemma bind_trace {A B} (m : M A) (k : A → M B) :
  (m ≫= k).2 =
  m.2 ++ match m.1 with
         | Return a => (k a).2
         | Raise _ => []
         end.
Proof.
  destruct m as [[a | e] t].
  - by rewrite bind_return.
  - rewrite bind_raise. simpl. by rewrite app_nil_r.
Qed.

(** A sequence of steps without events has none. *)
Lemma bind_silent {A B} (m : M A) (k : A → M B) :
  m.2 = [] → (∀ a, (k a).2 = []) → (m ≫= k).2 = [].
Proof.
  intros Hm Hk. rewrite bind_trace, Hm.
  destruct m.1; [apply Hk | reflexivity].
Qed.

Lemma getitem_silent {A} (key : string) (field : option A) :
  (getitem key field).2 = [].
Proof. by destruct field. Qed.

Lemma list_getitem_silent {A} (l : list A) (i : nat) :
  (list_getitem l i).2 = [].
Proof. unfold list_getitem. by destruct (l !! i). Qed.

Lemma coerce_silent (header : string) (value : option string) :
  (coerce header value).2 = [].
Proof. by rewrite coerce_cases. Qed.

Lemma header_names_silent (cells : list Cell) :
  (header_names cells).2 = [].
Proof.
  induction cells as [| h rest IH]; [reflexivity |]. simpl.
  apply bind_silent; [apply getitem_silent |]. intros name.
  apply bind_silent; [exact IH | done].
Qed.

Lemma cells_loop_silent (headers : list string) (cells : list Cell) :
  ∀ (i : nat) (item : pydict), (cells_loop headers i cells item).2 = [].
Proof.
  induction cells as [| c rest IH]; intros i item; [reflexivity |]. simpl.
  apply bind_silent; [apply list_getitem_silent |]. intros header.
  apply bind_silent; [apply coerce_silent |]. intros v. apply IH.
Qed.

Lemma rows_loop_silent (headers : list string) (rows : list Row) :
  ∀ data : list pydict, (rows_loop headers rows data).2 = [].
Proof.
  induction rows as [| row rest IH]; intros data; [reflexivity |]. simpl.
  apply bind_silent; [apply getitem_silent |]. intros cells.
  apply bind_silent; [apply cells_loop_silent |]. intros item. apply IH.
Qed.

(** Reading the result set costs the one fetch. *)
Lemma fetch_results_trace (query_id : string) :
  (fetch_results query_id).2 = [EvGetQueryResults query_id].
Proof.
  unfold fetch_results. rewrite bind_trace. simpl.
  destruct (get_query_results athena query_id) as [results | e];
    [| reflexivity].
  f_equal. apply bind_silent; [apply getitem_silent |]. intros result_set.
  apply bind_silent; [apply getitem_silent |]. intros rows.
  destruct (bool_decide (length rows ≤ 1)%nat); [reflexivity |].
  apply bind_silent; [apply list_getitem_silent |]. intros row0.
  apply bind_silent; [apply getitem_silent |]. intros cells0.
  apply bind_silent; [apply header_names_silent |]. intros headers.
  apply bind_silent; [apply rows_loop_silent |]. done.
Qed.

(** One iteration: a poll and a sleep when the loop goes on, a poll
    alone when it is left or raises. *)
Lemma poll_once_shape (query_id : string) (waited : Z) :
  (∃ s, poll_once query_id waited =
        (Return (Continue s), [EvGetQueryExecution query_id; EvSleep 1])) ∨
  (∃ o, poll_once query_id waited = (o, [EvGetQueryExecution query_id]) ∧
        ∀ s, o ≠ Return (Continue s)).
Proof.
  unfold poll_once.
  destruct (get_query_execution athena query_id waited)
    as [[query_execution] | e]; simpl;
    [| right; eexists; split; [reflexivity | done]].
  destruct query_execution as [[status_dict] |]; simpl;
    [| right; eexists; split; [reflexivity | done]].
  destruct status_dict as [[state reason] |]; simpl;
    [| right; eexists; split; [reflexivity | done]].
  destruct state as [status |]; simpl;
    [| right; eexists; split; [reflexivity | done]].
  destruct (String.eqb status "SUCCEEDED"); simpl;
    [right; eexists; split; [reflexivity | done] |].
  destruct (bool_decide (status ∈ ["FAILED"; "CANCELLED"])); simpl;
    [right; eexists; split; [reflexivity | done] |].
  left. by eexists.
Qed.

(** The loop leaves [m] rounds of poll and sleep, then at most one more
    poll, and never more polls than seconds are left. *)
Lemma poll_loop_shape (max_wait_seconds : Z) (query_id : string)
    (n : nat) :
  ∀ (waited : Z) (status : option string),
    Z.to_nat (max_wait_seconds - waited) = n →
    ∃ (m : nat) (last : list event),
      (poll_loop max_wait_seconds query_id waited status).2 =
        polling query_id m ++ last ∧
      (last = [] ∨ last = [EvGetQueryExecution query_id]) ∧
      (m + length last ≤ n)%nat.
Proof.
  induction n as [| n IH]; intros waited status Hn;
    rewrite poll_loop_iteration;
    destruct (decide (waited < max_wait_seconds)) as [Hlt | Hge];
    try lia.
  - exists 0%nat, []. simpl. by eauto.
  - destruct (poll_once_shape query_id waited)
      as [(s & ->) | (o & -> & Ho)].
    + destruct (IH (waited + 1) (Some s) ltac:(lia))
        as (m & last & Htrace & Hlast & Hm).
      exists (S m), last. split; [| split; [exact Hlast | lia]].
      unfold after. simpl. by rewrite Htrace.
    + exists 0%nat, [EvGetQueryExecution query_id].
      split; [| split; [by right | simpl; lia]].
      destruct o as [[s | r | s] | e]; try reflexivity.
      by destruct (Ho s).
Qed.

Lemma after_trace {A} (t : list event) (m : M A) :
  (after t m).2 = t ++ m.2.
Proof. reflexivity. Qed.

Lemma try_except_silent_trace {A} (m : M A) (h : exn → M A) :
  (∀ e, (h e).2 = []) → (try_except m h).2 = m.2.
Proof.
  intros Hh. destruct m as [[a | e] t]; [reflexivity |].
  rewrite try_except_raise. unfold after. simpl.
  by rewrite Hh, app_nil_r.
Qed.

Lemma after_loop_trace (query_id : string) (exit : loop_exit) :
  (after_loop query_id exit).2 = [] ∨
  (after_loop query_id exit).2 = [EvGetQueryResults query_id].
Proof.
  destruct exit as [r | [s |]]; unfold after_loop, read_local;
    [by left | | by left].
  rewrite bind_ret.
  destruct (negb (String.eqb s "SUCCEEDED")); [by left |].
  right. apply fetch_results_trace.
Qed.

(** The events of a run, in order: the submission, rounds of poll and
    sleep, at most one more poll, at most one fetch. *)
Lemma run_query_shape (query : string) (max_wait_seconds : Z) :
  ∃ (query_id : string) (m : nat) (last fetch : list event),
    (run_query query max_wait_seconds).2 =
      EvStartQueryExecution query DATABASE OUTPUT_S3 ::
      polling query_id m ++ last ++ fetch ∧
    (last = [] ∨ last = [EvGetQueryExecution query_id]) ∧
    (fetch = [] ∨ fetch = [EvGetQueryResults query_id]) ∧
    (m + length last ≤ Z.to_nat max_wait_seconds)%nat.
Proof.
  unfold run_query. rewrite try_except_silent_trace by done.
  unfold run_query_body.
  destruct (start_query_execution athena query DATABASE OUTPUT_S3)
    as [[[query_id |]] | e].
  - rewrite bind_call_return. cbn [QueryExecutionId].
    rewrite bind_getitem_some, after_trace, bind_trace.
    destruct (poll_loop_shape max_wait_seconds query_id
                (Z.to_nat max_wait_seconds) 0 None ltac:(f_equal; lia))
      as (m & last & Htrace & Hlast & Hm).
    rewrite Htrace.
    destruct (poll_loop max_wait_seconds query_id 0 None).1 as [exit | e].
    + exists query_id, m, last, (after_loop query_id exit).2.
      split; [by rewrite <- app_assoc |].
      split; [exact Hlast |]. split; [apply after_loop_trace | exact Hm].
    + exists query_id, m, last, []. rewrite !app_nil_r. by eauto.
  - rewrite bind_call_return. cbn [QueryExecutionId].
    unfold getitem, raise. rewrite bind_raise.
    exists "", 0%nat, [], []. simpl. split; [done |].
    repeat split; eauto; lia.
  - rewrite bind_call_raise.
    exists "", 0%nat, [], []. simpl. split; [done |].
    repeat split; eauto; lia.
Qed.

Lemma submissions_app (t1 t2 : list event) :
  submissions (t1 ++ t2) = (submissions t1 + submissions t2)%nat.
Proof. induction t1 as [| [] t1 IH]; simpl; lia. Qed.

Lemma fetches_app (t1 t2 : list event) :
  fetches (t1 ++ t2) = (fetches t1 + fetches t2)%nat.
Proof. induction t1 as [| [] t1 IH]; simpl; lia. Qed.

Lemma submissions_polling (query_id : string) (n : nat) :
  submissions (polling query_id n) = 0%nat.
Proof.
  induction n as [| n IH]; [reflexivity |].
  by rewrite polling_S, submissions_app, IH.
Qed.

Lemma fetches_polling (query_id : string) (n : nat) :
  fetches (polling query_id n) = 0%nat.
Proof.
  induction n as [| n IH]; [reflexivity |].
  by rewrite polling_S, fetches_app, IH.
Qed.

(** Whatever the service does, one call of [run_query] submits the query
    once, polls at most [max_wait_seconds] times, sleeps at most
    [max_wait_seconds] seconds (and never after its last poll), and
    fetches at most once. *)
Theorem run_query_budget (query : string) (max_wait_seconds : Z) :
  let t := (run_query query max_wait_seconds).2 in
  submissions t = 1%nat ∧
  (polls t ≤ Z.to_nat max_wait_seconds)%nat ∧
  slept t ≤ Z.max 0 max_wait_seconds ∧
  slept t ≤ Z.of_nat (polls t) ∧
  (fetches t ≤ 1)%nat.
Proof.
  destruct (run_query_shape query max_wait_seconds)
    as (query_id & m & last & fetch & -> & Hlast & Hfetch & Hm).
  simpl.
  rewrite !submissions_app, !polls_app, !slept_app, !fetches_app.
  rewrite submissions_polling, polls_polling, slept_polling,
    fetches_polling.
  destruct Hlast as [-> | ->], Hfetch as [-> | ->]; simpl in *; lia.
Qed.

(** ** Rows are returned only after SUCCEEDED *)

Lemma poll_once_break (query_id : string) (waited : Z) (s : string)
    (t : list event) :
  poll_once query_id waited = (Return (Break s), t) →
  s = "SUCCEEDED" ∧ saw_succeeded query_id waited.
Proof.
  unfold poll_once, saw_succeeded. intros Hpoll.
  apply bind_inv in Hpoll as (response & t1 & t2 & Hresp & Hpoll & _).
  unfold call in Hresp. injection Hresp as Hresp _.
  apply bind_inv in Hpoll as (qe & t3 & t4 & Hqe & Hpoll & _).
  apply getitem_inv in Hqe.
  apply bind_inv in Hpoll as (sd & t5 & t6 & Hsd & Hpoll & _).
  apply getitem_inv in Hsd.
  apply bind_inv in Hpoll as (status & t7 & t8 & Hstatus & Hpoll & _).
  apply getitem_inv in Hstatus.
  destruct (String.eqb status "SUCCEEDED") eqn:Heq.
  - apply String.eqb_eq in Heq as ->. injection Hpoll as <- _.
    split; [reflexivity |]. by exists response, qe, sd.
  - destruct (bool_decide (status ∈ ["FAILED"; "CANCELLED"]));
      [discriminate |].
    apply bind_inv in Hpoll as (u & t9 & t10 & _ & Hpoll & _).
    discriminate.
Qed.

Lemma poll_once_continue (query_id : string) (waited : Z) (s : string)
    (t : list event) :
  poll_once query_id waited = (Return (Continue s), t) →
  s ≠ "SUCCEEDED".
Proof.
  unfold poll_once. intros Hpoll.
  apply bind_inv in Hpoll as (response & t1 & t2 & _ & Hpoll & _).
  apply bind_inv in Hpoll as (qe & t3 & t4 & _ & Hpoll & _).
  apply bind_inv in Hpoll as (sd & t5 & t6 & _ & Hpoll & _).
  apply bind_inv in Hpoll as (status & t7 & t8 & _ & Hpoll & _).
  destruct (String.eqb status "SUCCEEDED") eqn:Heq; [discriminate |].
  apply String.eqb_neq in Heq.
  destruct (bool_decide (status ∈ ["FAILED"; "CANCELLED"]));
    [discriminate |].
  apply bind_inv in Hpoll as (u & t9 & t10 & _ & Hpoll & _).
  by injection Hpoll as <- _.
Qed.

(** The loop ends with [status] SUCCEEDED only through a poll that saw
    it. *)
Lemma poll_loop_succeeded (max_wait_seconds : Z) (query_id : string)
    (n : nat) :
  ∀ (waited : Z) (status : option string) (t : list event),
    Z.to_nat (max_wait_seconds - waited) = n →
    status ≠ Some "SUCCEEDED" →
    poll_loop max_wait_seconds query_id waited status =
      (Return (LoopEnd (Some "SUCCEEDED")), t) →
    ∃ k, waited ≤ k < max_wait_seconds ∧ saw_succeeded query_id k.
Proof.
  induction n as [| n IH]; intros waited status t Hn Hstatus;
    rewrite poll_loop_iteration;
    destruct (decide (waited < max_wait_seconds)) as [Hlt | Hge];
    try lia.
  - intros [= -> _]. by destruct Hstatus.
  - destruct (poll_once query_id waited) as [[[s | r | s] | e] t'] eqn:Hpoll;
      try discriminate.
    + intros _. exists waited. split; [lia |].
      by apply (poll_once_break _ _ _ _ Hpoll).
    + destruct (poll_loop max_wait_seconds query_id (waited + 1) (Some s))
        as [o t''] eqn:Hloop.
      rewrite after_pair. intros [= -> _].
      destruct (IH (waited + 1) (Some s) t'' ltac:(lia)) as (k & Hk & Hsaw);
        [| exact Hloop | exists k; split; [lia | exact Hsaw]].
      intros [= ->]. by apply (poll_once_continue _ _ _ _ Hpoll).
Qed.

(** [run_query] returns a list (rows, or the empty list) only when the
    submission was accepted and a poll within the budget saw SUCCEEDED;
    every other run ends in an error dict. *)
Theorem run_query_list_after_success (query : string)
    (max_wait_seconds : Z) (data : list pydict) (t : list event) :
  run_query query max_wait_seconds = (Return (PyList data), t) →
  ∃ query_id k,
    submitted query query_id ∧
    0 ≤ k < max_wait_seconds ∧
    saw_succeeded query_id k.
Proof.
  unfold run_query.
  destruct (run_query_body query max_wait_seconds) as [[r | e] t'] eqn:Hbody.
  - rewrite try_except_return. intros [= -> ->].
    unfold run_query_body in Hbody.
    apply bind_inv in Hbody as (response & t1 & t2 & Hstart & Hbody & _).
    unfold call in Hstart. injection Hstart as Hstart _.
    apply bind_inv in Hbody as (query_id & t3 & t4 & Hid & Hbody & _).
    apply getitem_inv in Hid.
    apply bind_inv in Hbody as (exit & t5 & t6 & Hloop & Hafter & _).
    destruct exit as [r | status]; unfold after_loop in Hafter.
    + injection Hafter as -> _.
      by destruct (poll_loop_return _ _ _ _ _ _ _ eq_refl Hloop).
    + apply bind_inv in Hafter as (s & t7 & t8 & Hs & Hafter & _).
      destruct status as [s' |]; [| discriminate].
      injection Hs as -> _.
      destruct (String.eqb s "SUCCEEDED") eqn:Heq; [| discriminate].
      apply String.eqb_eq in Heq as ->.
      destruct (poll_loop_succeeded _ _ _ 0 None t5 eq_refl ltac:(done) Hloop)
        as (k & Hk & Hsaw).
      exists query_id, k. split; [| by split].
      unfold submitted. rewrite Hstart. by destruct response as [[?|]];
        simplify_eq/=.
  - rewrite try_except_raise. unfold ret. rewrite after_pair. discriminate.
Qed.

(** ** Reading the rows *)

Lemma coerce_returns (header : string) (value : option string) :
  ∃ v, coerce header value = ret v.
Proof. rewrite coerce_cases. by eexists. Qed.

(** A row that fits under the headers is read cell by cell: each cell
    lands in the field of its column unless a later cell of the row has
    the same header, and the other fields of [item] stay as they are. *)
Lemma cells_loop_decodes (headers : list string) (cells : list Cell) :
  ∀ (i : nat) (item : pydict),
    (i + length cells ≤ length headers)%nat →
    ∃ item',
      cells_loop headers i cells item = ret item' ∧
      (∀ j header c,
         headers !! (i + j)%nat = Some header → cells !! j = Some c →
         (∀ j', (j < j' < length cells)%nat →
                headers !! (i + j')%nat ≠ Some header) →
         ∃ v, coerce header (VarCharValue c) = ret v ∧
              item' !! header = Some v) ∧
      (∀ header,
         (∀ j, (j < length cells)%nat →
               headers !! (i + j)%nat ≠ Some header) →
         item' !! header = item !! header).
Proof.
  induction cells as [| c rest IH]; intros i item Hlen.
  - exists item. split; [reflexivity |]. split; [| done].
    intros j header c _ Hc. by rewrite lookup_nil in Hc.
  - simpl in Hlen.
    destruct (lookup_lt_is_Some_2 headers i ltac:(lia)) as [h0 Hh0].
    destruct (coerce_returns h0 (VarCharValue c)) as [v0 Hv0].
    destruct (IH (S i) (<[h0 := v0]> item) ltac:(lia))
      as (item' & Hloop & Hfields & Hrest).
    exists item'. split; [| split].
    + by rewrite (cells_loop_cons _ _ _ _ _ _ _ Hh0 Hv0).
    + intros [| j] header c' Hheader Hc' Hlast.
      * rewrite Nat.add_0_r in Hheader. simplify_eq/=.
        exists v0. split; [exact Hv0 |].
        rewrite Hrest; [apply lookup_insert_eq |].
        intros j Hj. rewrite <- Nat.add_succ_r.
        apply Hlast. lia.
      * apply (Hfields j header c'); [| exact Hc' |].
        -- by replace (S i + j)%nat with (i + S j)%nat by lia.
        -- intros j' Hj'.
           replace (S i + j')%nat with (i + S j')%nat by lia.
           apply Hlast. simpl. lia.
    + intros header Hfresh. rewrite Hrest.
      * apply lookup_insert_ne. intros ->.
        apply (Hfresh 0%nat); [simpl; lia |].
        by rewrite Nat.add_0_r.
      * intros j Hj.
        replace (S i + j)%nat with (i + S j)%nat by lia.
        apply Hfresh. simpl. lia.
Qed.

(** A row that fits under the headers is read without an exception,
    whatever the headers are. *)
Lemma cells_loop_short (headers : list string) (cells : list Cell) :
  ∀ (i : nat) (item : pydict),
    (i + length cells ≤ length headers)%nat →
    ∃ item', cells_loop headers i cells item = ret item'.
Proof.
  induction cells as [| c rest IH]; intros i item Hlen.
  - by exists item.
  - simpl in Hlen.
    destruct (lookup_lt_is_Some_2 headers i ltac:(lia)) as [h0 Hh0].
    destruct (coerce_returns h0 (VarCharValue c)) as [v0 Hv0].
    destruct (IH (S i) (<[h0 := v0]> item) ltac:(lia)) as (item' & Hloop).
    exists item'. by rewrite (cells_loop_cons _ _ _ _ _ _ _ Hh0 Hv0).
Qed.

(** A row with more cells than headers raises [IndexError]. *)
Lemma cells_loop_long (headers : list string) (cells : list Cell) :
  ∀ (i : nat) (item : pydict),
    (i ≤ length headers)%nat →
    (length headers < i + length cells)%nat →
    cells_loop headers i cells item = raise index_error.
Proof.
  induction cells as [| c rest IH]; intros i item Hi Hlen.
  - simpl in Hlen. lia.
  - simpl in Hlen. destruct (headers !! i) as [h0 |] eqn:Hh0.
    + destruct (coerce_returns h0 (VarCharValue c)) as [v0 Hv0].
      rewrite (cells_loop_cons _ _ _ _ _ _ _ Hh0 Hv0).
      apply lookup_lt_Some in Hh0. apply IH; lia.
    + simpl. unfold list_getitem. by rewrite Hh0.
Qed.

Lemma list_getitem_head {A} (x : A) (l : list A) :
  list_getitem (x :: l) 0 = ret x.
Proof. reflexivity. Qed.

Lemma header_names_cells (headers : list string) :
  header_names (map cell headers) = ret headers.
Proof.
  induction headers as [| h rest IH]; [reflexivity |].
  simpl. by rewrite IH.
Qed.

Lemma rows_loop_cons (headers : list string) (cells : list Cell)
    (rest : list Row) (data : list pydict) (item : pydict) :
  cells_loop headers 0 cells ∅ = ret item →
  rows_loop headers ({| Data := Some cells |} :: rest) data =
  rows_loop headers rest (data ++ [item]).
Proof.
  intros Hitem. cbn [rows_loop Data].
  by rewrite bind_getitem_some, Hitem, bind_ret.
Qed.

Lemma rows_loop_decodes (headers : list string)
    (rows : list (list Cell)) :
  Forall (λ cells, length cells ≤ length headers)%nat rows →
  ∀ data : list pydict,
    ∃ items,
      rows_loop headers (map (λ cells, {| Data := Some cells |}) rows) data =
        ret (data ++ items) ∧
      Forall2 (decodes headers) rows items.
Proof.
  intros Hrows.
  induction Hrows as [| cells rest Hcells _ IH]; intros data.
  - exists []. by rewrite app_nil_r.
  - destruct (cells_loop_decodes headers cells 0 ∅ Hcells)
      as (item & Hitem & Hfields & Hrest).
    destruct (IH (data ++ [item])) as (items & Hloop & Hdec).
    exists (item :: items). split.
    + simpl map. rewrite (rows_loop_cons _ _ _ _ _ Hitem), Hloop.
      by rewrite <- app_assoc.
    + constructor; [| exact Hdec]. split.
      * exact Hfields.
      * intros header Hfresh. by rewrite (Hrest header Hfresh).
Qed.

(** With one data row that has more cells than the header row, the loop
    over the rows raises [IndexError], wherever that row stands. *)
Lemma rows_loop_long (headers : list string) (rows : list (list Cell)) :
  Exists (λ cells, length headers < length cells)%nat rows →
  ∀ data : list pydict,
    rows_loop headers (map (λ cells, {| Data := Some cells |}) rows) data =
    raise index_error.
Proof.
  induction rows as [| cells rest IH]; intros Hlong data.
  - by apply Exists_nil in Hlong.
  - destruct (decide (length headers < length cells)%nat) as [Hlt | Hge].
    + cbn [map rows_loop Data]. rewrite bind_getitem_some.
      by rewrite (cells_loop_long headers cells 0 ∅ ltac:(lia) Hlt).
    + apply Exists_cons in Hlong as [Hlt | Hlong]; [lia |].
      destruct (cells_loop_short headers cells 0 ∅ ltac:(lia))
        as (item & Hitem).
      simpl map. rewrite (rows_loop_cons _ _ _ _ _ Hitem).
      by apply IH.
Qed.

(** What the fetch does with a well-formed result set, up to the loop
    over the data rows. *)
Lemma fetch_results_fetched (query_id : string) (headers : list string)
    (rows : list (list Cell)) :
  fetched query_id headers rows →
  fetch_results query_id =
  after [EvGetQueryResults query_id]
    match rows with
    | [] => ret (PyList [])
    | _ :: _ =>
        data ← rows_loop headers
                 (map (λ cells, {| Data := Some cells |}) rows) [];
        ret (PyList data)
    end.
Proof.
  intros Hfetch. unfold fetch_results. rewrite Hfetch, bind_call_return.
  unfold results_response. cbn [ResultSet].
  rewrite bind_getitem_some. cbn [Rows]. rewrite bind_getitem_some.
  destruct rows as [| cells rest]; [reflexivity |].
  simpl map. simpl length. rewrite bool_decide_eq_false_2 by lia.
  rewrite list_getitem_head, bind_ret.
  cbn [Data]. rewrite bind_getitem_some, header_names_cells, bind_ret.
  reflexivity.
Qed.

(** A successful run, up to what the fetch returns. *)
Lemma run_query_succeeded (query query_id : string)
    (max_wait_seconds k : Z) (reason : option string) :
  submitted query query_id →
  0 ≤ k < max_wait_seconds →
  pending_until query_id k →
  observes query_id k "SUCCEEDED" reason →
  run_query query max_wait_seconds =
  after (EvStartQueryExecution query DATABASE OUTPUT_S3 ::
         polling query_id (Z.to_nat k) ++ [EvGetQueryExecution query_id])
    (try_except (fetch_results query_id)
                (λ e, ret (ErrorDict (str e)))).
Proof.
  intros Hsub Hk Hpend Hobs.
  destruct (run_query_pending query query_id max_wait_seconds k
              Hsub ltac:(lia) Hpend) as (st & Hrun & _).
  rewrite Hrun, poll_loop_iteration.
  destruct (decide (k < max_wait_seconds)) as [_ | Hge]; [| lia].
  rewrite (poll_once_succeeded _ _ _ Hobs).
  autorewrite with pym. unfold after_loop, read_local.
  autorewrite with pym. simpl negb. cbv iota. reflexivity.
Qed.

(** A successful run over a result set whose data rows have no more
    cells than there are headers returns one item for each data row, in
    the order of the rows, and each item is the row read under the
    headers: every field holds the coerced cell of its column, the last
    one when a header occurs twice, and a row short of cells lacks the
    keys of the missing columns. *)
Theorem run_query_decodes (query query_id : string)
    (max_wait_seconds k : Z) (reason : option string)
    (headers : list string) (rows : list (list Cell)) :
  submitted query query_id →
  0 ≤ k < max_wait_seconds →
  pending_until query_id k →
  observes query_id k "SUCCEEDED" reason →
  fetched query_id headers rows →
  Forall (λ cells, length cells ≤ length headers)%nat rows →
  ∃ data,
    run_query query max_wait_seconds =
    (Return (PyList data),
     EvStartQueryExecution query DATABASE OUTPUT_S3 ::
     polling query_id (Z.to_nat k) ++
     [EvGetQueryExecution query_id; EvGetQueryResults query_id]) ∧
    Forall2 (decodes headers) rows data.
Proof.
  intros Hsub Hk Hpend Hobs Hfetch Hrows.
  rewrite (run_query_succeeded _ _ _ _ _ Hsub Hk Hpend Hobs).
  rewrite (fetch_results_fetched _ _ _ Hfetch).
  destruct (rows_loop_decodes headers rows Hrows [])
    as (data & Hloop & Hdec).
  exists data. split; [| exact Hdec].
  destruct rows as [| cells rest].
  - apply Forall2_nil_inv_l in Hdec as ->.
    unfold ret. autorewrite with pym. simpl.
    by rewrite <- app_assoc.
  - rewrite Hloop, bind_ret. unfold ret. autorewrite with pym. simpl.
    by rewrite <- app_assoc.
Qed.

(** One data row with more cells than the header row makes the whole
    query fail with the message of the [IndexError]: no row is returned,
    not even the well-formed ones. *)
Theorem run_query_long_row (query query_id : string)
    (max_wait_seconds k : Z) (reason : option string)
    (headers : list string) (rows : list (list Cell)) :
  submitted query query_id →
  0 ≤ k < max_wait_seconds →
  pending_until query_id k →
  observes query_id k "SUCCEEDED" reason →
  fetched query_id headers rows →
  Exists (λ cells, length headers < length cells)%nat rows →
  (run_query query max_wait_seconds).1 =
  Return (ErrorDict "list index out of range").
Proof.
  intros Hsub Hk Hpend Hobs Hfetch Hlong.
  rewrite (run_query_succeeded _ _ _ _ _ Hsub Hk Hpend Hobs).
  rewrite (fetch_results_fetched _ _ _ Hfetch).
  rewrite (rows_loop_long headers rows Hlong []).
  destruct rows as [| cells rest]; [by apply Exists_nil in Hlong |].
  unfold raise. rewrite bind_raise. by autorewrite with pym.
Qed.

(** ** Malformed and empty answers *)

(** A submission response without [QueryExecutionId] ends the run before
    any poll, with the message of the [KeyError]. *)
Theorem run_query_missing_id (query : string) (max_wait_seconds : Z) :
  start_query_execution athena query DATABASE OUTPUT_S3 =
    Return {| QueryExecutionId := None |} →
  run_query query max_wait_seconds =
  (Return (ErrorDict "'QueryExecutionId'"),
   [EvStartQueryExecution query DATABASE OUTPUT_S3]).
Proof.
  intros Hstart.
  apply (run_query_caught _ _ (key_error "QueryExecutionId")).
  unfold run_query_body. rewrite Hstart, bind_call_return.
  cbn [QueryExecutionId]. unfold getitem, raise. by rewrite bind_raise.
Qed.

(** A result set without any row, not even the header row, gives the
    empty list. *)
Theorem run_query_no_rows (query query_id : string)
    (max_wait_seconds k : Z) (reason : option string) :
  submitted query query_id →
  0 ≤ k < max_wait_seconds →
  pending_until query_id k →
  observes query_id k "SUCCEEDED" reason →
  get_query_results athena query_id =
    Return {| ResultSet := Some {| Rows := Some [] |} |} →
  run_query query max_wait_seconds =
  (Return (PyList []),
   EvStartQueryExecution query DATABASE OUTPUT_S3 ::
   polling query_id (Z.to_nat k) ++
   [EvGetQueryExecution query_id; EvGetQueryResults query_id]).
Proof.
  intros Hsub Hk Hpend Hobs Hfetch.
  rewrite (run_query_succeeded _ _ _ _ _ Hsub Hk Hpend Hobs).
  unfold fetch_results. rewrite Hfetch, bind_call_return.
  cbn [ResultSet]. rewrite bind_getitem_some.
  cbn [Rows]. rewrite bind_getitem_some.
  simpl. unfold ret. autorewrite with pym. simpl.
  by rewrite <- app_assoc.
Qed.

(** ** The routes and the store *)

(** On a success of the proxy the five aggregate endpoints answer with
    the rows as the proxy returned them, and [latest] with these rows
    followed by the simulated alert record. *)
Theorem route_passes_rows (ep : endpoint) (query : string)
    (request : request_json) (now : Z) (acknowledged_alerts : gset string)
    (rows : list pydict) (t : list event) :
  proxy_query ep = Some query →
  run_query query 30 = (Return (PyList rows), t) →
  route ep request now acknowledged_alerts =
  (Return ({| status_code := 200;
              body := JList match ep with
                            | Latest => rows ++ [simulated_alert_row now]
                            | _ => rows
                            end |},
           acknowledged_alerts), t).
Proof.
  intros Hquery Hrun.
  rewrite (route_proxy_endpoint ep query request now acknowledged_alerts
             _ t Hquery Hrun).
  by destruct ep, rows.
Qed.

(** No route puts the empty string into the store. *)
Theorem route_keeps_keys_non_empty (ep : endpoint) (request : request_json)
    (now : Z) (acknowledged_alerts acknowledged_alerts' : gset string)
    (response : Response) (t : list event) :
  "" ∉ acknowledged_alerts →
  route ep request now acknowledged_alerts =
    (Return (response, acknowledged_alerts'), t) →
  "" ∉ acknowledged_alerts'.
Proof.
  intros Hstore Hroute.
  destruct (proxy_query ep) as [query |] eqn:Hquery.
  - destruct (run_query_returns query 30) as (data & t' & Hrun).
    rewrite (route_proxy_endpoint ep query request now acknowledged_alerts
               data t' Hquery Hrun) in Hroute.
    by injection Hroute as _ <- _.
  - destruct ep; try discriminate Hquery; unfold route in Hroute.
    + rewrite (stateless_return co_trend _ [] _ eq_refl) in Hroute.
      by injection Hroute as _ <- _.
    + rewrite acknowledge_alert_cases in Hroute.
      destruct (json_get "alert_key" request) as [key |];
        [| by injection Hroute as _ <- _].
      destruct (String.eqb key "") eqn:Heq; simpl in Hroute;
        [by injection Hroute as _ <- _ |].
      apply String.eqb_neq in Heq. injection Hroute as _ <- _.
      rewrite elem_of_union, elem_of_singleton. by intros [<- | Hin].
    + injection Hroute as _ <- _. apply not_elem_of_empty.
Qed.

(** A non-empty key is acknowledged: the answer is 200 and names the
    key, the store is the old one with the key added, and acknowledging
    the same key again changes nothing. *)
Theorem acknowledge_alert_adds_key (request : request_json)
    (acknowledged_alerts : gset string) (key : string) :
  request !! "alert_key" = Some (JString key) →
  key ≠ "" →
  ∃ acknowledged_alerts',
    acknowledge_alert request acknowledged_alerts =
      ret ({| status_code := 200;
              body := JDict (list_to_map [("success", VBool true);
                                          ("acknowledged", VStr key)]) |},
           acknowledged_alerts') ∧
    (∀ k, k ∈ acknowledged_alerts' ↔ k = key ∨ k ∈ acknowledged_alerts) ∧
    (acknowledge_alert request acknowledged_alerts').1 =
      (acknowledge_alert request acknowledged_alerts).1.
Proof.
  intros Hkey Hne. exists ({[ key ]} ∪ acknowledged_alerts).
  rewrite !acknowledge_alert_cases. unfold json_get. rewrite Hkey.
  apply String.eqb_neq in Hne. rewrite Hne. simpl.
  split; [reflexivity |]. split.
  - intros k. by rewrite elem_of_union, elem_of_singleton.
  - by rewrite (assoc_L (∪)), (idemp_L (∪)).
Qed.

(** An empty-string key is refused like a missing one. *)
Theorem acknowledge_alert_empty_key (request : request_json)
    (acknowledged_alerts : gset string) :
  request !! "alert_key" = Some (JString "") →
  acknowledge_alert request acknowledged_alerts =
  ret (refused, acknowledged_alerts).
Proof.
  intros Hkey. rewrite acknowledge_alert_cases. unfold json_get.
  by rewrite Hkey.
Qed.

(** ** The synthetic trend *)

Lemma flat_map_chunks_length {A B} (f : A → list B) (n : nat)
    (l : list A) :
  (∀ x, length (f x) = n) →
  length (flat_map f l) = (n * length l)%nat.
Proof.
  intros Hf. induction l as [| a l IH]; simpl; [lia |].
  rewrite length_app, Hf, IH. lia.
Qed.

Lemma flat_map_chunks_lookup {A B} (f : A → list B) (n : nat) :
  (∀ x, length (f x) = n) →
  ∀ (l : list A) (i j : nat) (x : A),
    l !! i = Some x → (j < n)%nat →
    flat_map f l !! (n * i + j)%nat = f x !! j.
Proof.
  intros Hf. induction l as [| a l IH]; intros i j x Hx Hj; [done |].
  simpl. destruct i as [| i].
  - injection Hx as ->. rewrite Nat.mul_0_r. simpl.
    apply lookup_app_l. by rewrite Hf.
  - rewrite lookup_app_r by (rewrite Hf; lia).
    rewrite Hf. replace (n * S i + j - n)%nat with (n * i + j)%nat by lia.
    by apply IH.
Qed.

(** The trend has 150 points, three for each of the fifty steps in the
    order of [devices], and makes no remote call: the point of step [i]
    and device number [j] stands at index [3 * i + j]; its [ts] is what
    the runtime computes for the offset of [50 - i] minutes, the same
    for the three devices of a step; it carries the device, and a float
    as [co]. *)
Theorem co_trend_points :
  ∃ data,
    co_trend = (Return {| status_code := 200; body := JList data |}, []) ∧
    length data = 150%nat ∧
    ∀ (i j : nat) (device : string),
      (i < 50)%nat → devices !! j = Some device →
      ∃ point co,
        data !! (3 * i + j)%nat = Some point ∧
        point !! "ts" =
          Some (VInt (timestamp_minutes_ago (50 - Z.of_nat i))) ∧
        point !! "device" = Some (VStr device) ∧
        point !! "co" = Some (VFloat co).
Proof.
  assert (∀ i, length (imap (co_trend_point i) devices) = 3%nat) as Hchunk.
  { intros i. by rewrite length_imap. }
  eexists. split; [reflexivity |]. split.
  - by rewrite (flat_map_chunks_length _ 3 _ Hchunk), length_seq.
  - intros i j device Hi Hj.
    rewrite (flat_map_chunks_lookup _ 3 Hchunk (seq 0 50) i j i).
    + rewrite list_lookup_imap, Hj. simpl.
      eexists _, _. split; [reflexivity |].
      unfold co_trend_point. by split; [| split].
    + by apply lookup_seq_lt.
    + by apply lookup_lt_Some in Hj.
Qed.

(** Only the first device escalates: its [co] is drawn from 0.003 to
    0.008 up to minute 30, from 0.080 to 0.120 for the minutes 31 to 40
    and from 0.120 to 0.1305 for the minutes 41 to 49; the [co] of the
    other two devices is drawn from 0.003 to 0.008 at every minute. *)
Theorem co_trend_bands (data : list pydict) (i j : nat) (device : string) :
  co_trend = (Return {| status_code := 200; body := JList data |}, []) →
  (i < 50)%nat →
  devices !! j = Some device →
  ∃ point,
    data !! (3 * i + j)%nat = Some point ∧
    point !! "co" =
    Some (VFloat (round6
      match j with
      | O =>
          if bool_decide (40 < i)%nat
          then uniform (3 * i + j) 0.120%float 0.1305%float
          else if bool_decide (30 < i)%nat
          then uniform (3 * i + j) 0.080%float 0.120%float
          else uniform (3 * i + j) 0.003%float 0.008%float
      | S _ => uniform (3 * i + j) 0.003%float 0.008%float
      end)).
Proof.
  assert (∀ i, length (imap (co_trend_point i) devices) = 3%nat) as Hchunk.
  { intros i'. by rewrite length_imap. }
  intros Hdata Hi Hj.
  assert (data = flat_map (λ i, imap (co_trend_point i) devices)
                   (seq 0 50)) as ->.
  { by injection Hdata as <-. }
  rewrite (flat_map_chunks_lookup _ 3 Hchunk (seq 0 50) i j i);
    [| by apply lookup_seq_lt | by apply lookup_lt_Some in Hj].
  rewrite list_lookup_imap, Hj. simpl.
  eexists. split; [reflexivity |].
  unfold co_trend_point.
  destruct j as [| [| [| j]]]; simplify_eq/=; reflexivity.
Qed.

(** ** The routes on every request *)

Lemma stateless_any_return (h : M Response) (response : Response)
    (t : list event) (acknowledged_alerts : pyset) :
  h = (Return response, t) →
  stateless_any h acknowledged_alerts =
  (Return (response, acknowledged_alerts), t).
Proof.
  intros ->. unfold stateless_any. rewrite bind_return.
  unfold ret. by rewrite after_pair, app_nil_r.
Qed.

(** An endpoint that calls the proxy answers 200 and leaves the store
    alone, whatever the request carries. *)
Lemma route_any_proxy_endpoint (ep : endpoint) (query : string)
    (request_json : outcome json_value) (now : Z)
    (acknowledged_alerts : pyset) (data : query_result) (t : list event) :
  proxy_query ep = Some query →
  run_query query 30 = (Return data, t) →
  route_any ep request_json now acknowledged_alerts =
  (Return
     (jsonify (JList match ep, data with
                     | Latest, PyList (row :: rows) =>
                         (row :: rows) ++ [simulated_alert_row now]
                     | Latest, _ => [simulated_alert_row now]
                     | _, PyList rows => rows
                     | _, ErrorDict _ => []
                     end),
      acknowledged_alerts), t).
Proof.
  intros Hquery Hrun.
  destruct ep; simplify_eq/=; apply stateless_any_return;
    first [ rewrite (latest_cases _ _ _ Hrun)
          | unfold avg_metrics, max_metrics, alert_counts, humidity_co,
              temp_dist; rewrite (aggregate_cases _ _ _ Hrun) ];
    by destruct data as [[| row rows] | msg].
Qed.

(** Every route but the acknowledge one returns, and answers 200. *)
Lemma route_any_answers_200 (ep : endpoint)
    (request_json : outcome json_value) (now : Z)
    (acknowledged_alerts : pyset) :
  ep ≠ AcknowledgeAlert →
  ∃ (response : Response) (acknowledged_alerts' : pyset) (t : list event),
    route_any ep request_json now acknowledged_alerts =
      (Return (response, acknowledged_alerts'), t) ∧
    status_code response = 200.
Proof.
  intros Hep. destruct (proxy_query ep) as [query |] eqn:Hquery.
  - destruct (run_query_returns query 30) as (data & t & Hrun).
    rewrite (route_any_proxy_endpoint ep query request_json now
               acknowledged_alerts data t Hquery Hrun).
    by eexists _, _, _.
  - destruct ep; try discriminate Hquery; try done; unfold route_any.
    + rewrite (stateless_any_return co_trend _ [] _ eq_refl).
      by eexists _, _, _.
    + unfold reset_alerts_any. by eexists _, _, _.
Qed.

(** The acknowledge handler on a dict whose [alert_key] is missing or
    false: 400, and the store is as it was. *)
Lemma acknowledge_alert_any_refuses (members : list (string * json_value))
    (acknowledged_alerts : pyset) :
  key_truthy members = false →
  acknowledge_alert_any (Return (JsObject members)) acknowledged_alerts =
  ret (refused, acknowledged_alerts).
Proof.
  unfold key_truthy, acknowledge_alert_any, eval. intros Hkey.
  rewrite bind_return, after_nil, bind_ret.
  destruct (dict_get "alert_key" members) as [v |]; [| reflexivity].
  by rewrite Hkey.
Qed.

(** What the acknowledge handler returns, when it returns: the refusal
    with the store as it was, for a dict whose [alert_key] is missing or
    false, or 200 with the key added, for a dict whose [alert_key] is a
    true scalar. It makes no remote call. *)
Lemma acknowledge_alert_any_returns (request_json : outcome json_value)
    (acknowledged_alerts acknowledged_alerts' : pyset)
    (response : Response) (t : list event) :
  acknowledge_alert_any request_json acknowledged_alerts =
    (Return (response, acknowledged_alerts'), t) →
  t = [] ∧
  ∃ members,
    request_json = Return (JsObject members) ∧
    ((response = refused ∧ acknowledged_alerts' = acknowledged_alerts ∧
      key_truthy members = false) ∨
     (∃ x,
        dict_get "alert_key" members = Some (JsScalar x) ∧
        scalar_truthy x = true ∧
        response =
          jsonify (JDict (list_to_map [
            ("success", VBool true);
            ("acknowledged", pyval_of_scalar x) ])) ∧
        acknowledged_alerts' = set_add acknowledged_alerts x)).
Proof.
  unfold acknowledge_alert_any, eval, key_truthy.
  destruct request_json as [[x | elements | members] | e];
    try discriminate.
  rewrite bind_return, after_nil, bind_ret.
  destruct (dict_get "alert_key" members) as [v |] eqn:Hget.
  - destruct (value_truthy v) eqn:Htruthy.
    + destruct v as [x | elements | members']; try discriminate.
      intros [= <- <- <-]. split; [reflexivity |].
      exists members. split; [reflexivity |]. right. exists x.
      split; [exact Hget |]. split; [exact Htruthy |]. by split.
    + intros [= <- <- <-]. split; [reflexivity |].
      exists members. split; [reflexivity |]. left. by rewrite Hget.
  - intros [= <- <- <-]. split; [reflexivity |].
    exists members. split; [reflexivity |]. left. by rewrite Hget.
Qed.

(** When the acknowledge handler raises: [request.json] raised, the
    body is not a dict, or the key is a non-empty list or dict. *)
Lemma acknowledge_alert_any_raises (request_json : outcome json_value)
    (acknowledged_alerts : pyset) (e : exn) (t : list event) :
  acknowledge_alert_any request_json acknowledged_alerts = (Raise e, t) →
  request_json = Raise e ∨
  (∃ body, request_json = Return body ∧ exn_cls e = AttributeError ∧
           ∀ members, body ≠ JsObject members) ∨
  (∃ members v,
     request_json = Return (JsObject members) ∧
     dict_get "alert_key" members = Some v ∧
     value_truthy v = true ∧ exn_cls e = TypeError ∧
     ∀ x, v ≠ JsScalar x).
Proof.
  unfold acknowledge_alert_any, eval.
  destruct request_json as [[x | elements | members] | e'].
  - intros [= <- _]. right. left. by eexists.
  - intros [= <- _]. right. left. by eexists.
  - rewrite bind_return, after_nil, bind_ret.
    destruct (dict_get "alert_key" members) as [v |] eqn:Hget;
      [| discriminate].
    destruct (value_truthy v) eqn:Htruthy; [| discriminate].
    destruct v as [x | elements | members']; [discriminate | |];
      intros [= <- _]; right; right; by eexists _, _.
  - intros [= <- _]. by left.
Qed.

(** The handler of the documented interface is the handler on every
    request, read on the requests of that interface: the same response,
    and the same change of the store. *)
Lemma acknowledge_alert_interface (members : list (string * json_value))
    (request : request_json) (acknowledged_alerts : pyset)
    (acknowledged_strings : gset string) :
  match dict_get "alert_key" members with
  | None => request !! "alert_key" = None
  | Some (JsScalar JsNull) => request !! "alert_key" = Some JNull
  | Some (JsScalar (JsString s)) =>
      request !! "alert_key" = Some (JString s)
  | Some _ => False
  end →
  ∃ response acknowledged_alerts' acknowledged_strings',
    acknowledge_alert_any (Return (JsObject members)) acknowledged_alerts =
      ret (response, acknowledged_alerts') ∧
    acknowledge_alert request acknowledged_strings =
      ret (response, acknowledged_strings') ∧
    ((acknowledged_alerts' = acknowledged_alerts ∧
      acknowledged_strings' = acknowledged_strings) ∨
     ∃ s, acknowledged_alerts' = set_add acknowledged_alerts (JsString s) ∧
          acknowledged_strings' = {[ s ]} ∪ acknowledged_strings).
Proof.
  rewrite acknowledge_alert_cases.
  unfold acknowledge_alert_any, eval, json_get.
  rewrite bind_return, after_nil, bind_ret.
  destruct (dict_get "alert_key" members)
    as [[[| b | z | f | s] | elements | members'] |]; try done;
    intros ->; simpl.
  - eexists _, _, _. split; [reflexivity |]. split; [reflexivity |].
    by left.
  - destruct (String.eqb s ""); simpl.
    + eexists _, _, _. split; [reflexivity |]. split; [reflexivity |].
      by left.
    + eexists _, _, _. split; [reflexivity |]. split; [reflexivity |].
      right. by exists s.
  - eexists _, _, _. split; [reflexivity |]. split; [reflexivity |].
    by left.
Qed.

(** C1, as the code has it. On a failure of the proxy the five aggregate
    endpoints answer 200 with the empty list and [latest] answers 200
    with the list that holds the simulated alert record only. The
    acknowledge endpoint is the only one whose handler returns a status
    other than 200: every other route returns 200 whatever the request
    and the service are, and the acknowledge handler returns a status
    other than 200 only as the 400 refusal, with the store as it was,
    which it gives exactly to the dicts whose [alert_key] is missing or
    false. *)
Theorem handlers_on_failure_and_status :
  (∀ (ep : endpoint) (query : string) (request_json : outcome json_value)
     (now : Z) (acknowledged_alerts : pyset) (msg : string)
     (t : list event),
     proxy_query ep = Some query →
     run_query query 30 = (Return (ErrorDict msg), t) →
     route_any ep request_json now acknowledged_alerts =
     (Return ({| status_code := 200;
                 body := JList match ep with
                               | Latest => [simulated_alert_row now]
                               | _ => []
                               end |},
              acknowledged_alerts), t)) ∧
  (∀ (ep : endpoint) (request_json : outcome json_value) (now : Z)
     (acknowledged_alerts : pyset),
     ep ≠ AcknowledgeAlert →
     ∃ (response : Response) (acknowledged_alerts' : pyset)
       (t : list event),
       route_any ep request_json now acknowledged_alerts =
         (Return (response, acknowledged_alerts'), t) ∧
       status_code response = 200) ∧
  (∀ (request_json : outcome json_value) (now : Z)
     (acknowledged_alerts acknowledged_alerts' : pyset)
     (response : Response) (t : list event),
     route_any AcknowledgeAlert request_json now acknowledged_alerts =
       (Return (response, acknowledged_alerts'), t) →
     status_code response ≠ 200 →
     response = refused ∧
     acknowledged_alerts' = acknowledged_alerts ∧
     ∃ members,
       request_json = Return (JsObject members) ∧
       key_truthy members = false) ∧
  (∀ (members : list (string * json_value)) (now : Z)
     (acknowledged_alerts : pyset),
     key_truthy members = false →
     route_any AcknowledgeAlert (Return (JsObject members)) now
       acknowledged_alerts =
     ret (refused, acknowledged_alerts)).
Proof.
  split; [| split; [| split]].
  - intros ep query request_json now acknowledged_alerts msg t Hquery Hrun.
    rewrite (route_any_proxy_endpoint ep query request_json now
               acknowledged_alerts _ t Hquery Hrun).
    by destruct ep.
  - intros ep request_json now acknowledged_alerts Hep.
    by apply route_any_answers_200.
  - intros request_json now acknowledged_alerts acknowledged_alerts'
      response t Hroute Hstatus.
    apply acknowledge_alert_any_returns in Hroute
      as (_ & members & -> & [(-> & -> & Hkey) | (x & _ & _ & -> & _)]).
    + split; [reflexivity |]. split; [reflexivity |]. by exists members.
    + by destruct Hstatus.
  - intros members now acknowledged_alerts Hkey.
    by apply acknowledge_alert_any_refuses.
Qed.

(** What a route does to the store, on any request and whatever the
    service does. The seven read endpoints answer 200 with a list and
    leave the store as it is. The reset endpoint answers 200 and clears
    it, without a remote call. The acknowledge endpoint makes no remote
    call, and when its handler returns it has either refused and left
    the store as it is, or answered 200 and added the one key of the
    request, a scalar that is true. *)
Theorem route_effect (ep : endpoint) (request_json : outcome json_value)
    (now : Z) (acknowledged_alerts : pyset) :
  match ep with
  | AcknowledgeAlert =>
      (route_any ep request_json now acknowledged_alerts).2 = [] ∧
      ∀ (response : Response) (acknowledged_alerts' : pyset),
        (route_any ep request_json now acknowledged_alerts).1 =
          Return (response, acknowledged_alerts') →
        (status_code response = 400 ∧
         acknowledged_alerts' = acknowledged_alerts) ∨
        (status_code response = 200 ∧
         ∃ members x,
           request_json = Return (JsObject members) ∧
           dict_get "alert_key" members = Some (JsScalar x) ∧
           scalar_truthy x = true ∧
           acknowledged_alerts' = set_add acknowledged_alerts x)
  | ResetAlerts =>
      ∃ response,
        route_any ep request_json now acknowledged_alerts =
          (Return (response, set_clear acknowledged_alerts), []) ∧
        status_code response = 200
  | _ =>
      ∃ response l t,
        route_any ep request_json now acknowledged_alerts =
          (Return (response, acknowledged_alerts), t) ∧
        status_code response = 200 ∧
        body response = JList l
  end.
Proof.
  destruct (proxy_query ep) as [query |] eqn:Hquery.
  - destruct (run_query_returns query 30) as (data & t & Hrun).
    rewrite (route_any_proxy_endpoint ep query request_json now
               acknowledged_alerts data t Hquery Hrun).
    destruct ep; try discriminate Hquery; by eexists _, _, _.
  - destruct ep; try discriminate Hquery; unfold route_any.
    + rewrite (stateless_any_return co_trend _ [] _ eq_refl).
      by eexists _, _, _.
    + destruct (acknowledge_alert_any request_json acknowledged_alerts)
        as [[[response store'] | e] t] eqn:Hack.
      * destruct (acknowledge_alert_any_returns _ _ _ _ _ Hack)
          as (-> & members & -> & Hcases).
        split; [reflexivity |]. simpl. intros response' store'' [= <- <-].
        destruct Hcases as [(-> & -> & _) | (x & Hget & Hx & -> & ->)].
        -- by left.
        -- right. split; [reflexivity |]. by exists members, x.
      * unfold acknowledge_alert_any, eval in Hack.
        split; [| simpl; discriminate].
        destruct request_json as [[x | elements | members] | e'];
          try (by injection Hack as _ <-).
        rewrite bind_return, after_nil, bind_ret in Hack.
        destruct (dict_get "alert_key" members) as [v |];
          [| discriminate].
        destruct (value_truthy v); [| discriminate].
        destruct v; [discriminate | |]; by injection Hack as _ <-.
    + unfold reset_alerts_any. by eexists.
Qed.

End App.

(** ** The theorems at concrete services *)



(** A service out of reach: the connection error becomes the result. *)
Lemma run_query_never_raises_witness :
  run_query decimal_float unreachable latest_query 30 =
  (Return (ErrorDict "Could not connect to the endpoint URL"),
   [EvStartQueryExecution latest_query DATABASE OUTPUT_S3]).
Proof.
  destruct (run_query_never_raises decimal_float unreachable
              latest_query 30) as (_ & Hcaught & _).
  apply (Hcaught (Exn ClientError "Could not connect to the endpoint URL")).
  reflexivity.
Defined.

(** Two seconds of RUNNING, then SUCCEEDED with the header row only. *)
Lemma run_query_header_only_witness :
  run_query decimal_float
    (service succeeds_after_2 None [[cell "device"; cell "avg_co"]])
    avg_metrics_query 30 =
  (Return (PyList []),
   EvStartQueryExecution avg_metrics_query DATABASE OUTPUT_S3 ::
   polling "query-1" 2 ++
   [EvGetQueryExecution "query-1"; EvGetQueryResults "query-1"]).
Proof.
  apply (run_query_header_only decimal_float
           (service succeeds_after_2 None [[cell "device"; cell "avg_co"]])
           avg_metrics_query "query-1" 30 2 None
           {| Data := Some [cell "device"; cell "avg_co"] |}).
  - reflexivity.
  - lia.
  - intros w Hw. exists "RUNNING", None. split; [| reflexivity].
    unfold observes, service, succeeds_after_2. simpl.
    rewrite bool_decide_eq_true_2 by lia. reflexivity.
  - reflexivity.
  - reflexivity.
Defined.

(** Three seconds of QUEUED, then FAILED: three sleeps out of thirty. *)
Lemma run_query_fails_at_once_witness :
  run_query decimal_float
    (service fails_after_3 (Some "SYNTAX_ERROR: line 1:8") [])
    latest_query 30 =
  (Return (ErrorDict "Query FAILED: SYNTAX_ERROR: line 1:8"),
   EvStartQueryExecution latest_query DATABASE OUTPUT_S3 ::
   polling "query-1" 3 ++ [EvGetQueryExecution "query-1"]) ∧
  slept (run_query decimal_float
           (service fails_after_3 (Some "SYNTAX_ERROR: line 1:8") [])
           latest_query 30).2 = 3 ∧
  slept (run_query decimal_float
           (service fails_after_3 (Some "SYNTAX_ERROR: line 1:8") [])
           latest_query 30).2 < 30.
Proof.
  apply (run_query_fails_at_once decimal_float
           (service fails_after_3 (Some "SYNTAX_ERROR: line 1:8") [])
           latest_query "query-1" 30 3 "FAILED"
           (Some "SYNTAX_ERROR: line 1:8")).
  - reflexivity.
  - lia.
  - intros w Hw. exists "QUEUED", (Some "SYNTAX_ERROR: line 1:8").
    split; [| reflexivity].
    unfold observes, service, fails_after_3. simpl.
    rewrite bool_decide_eq_true_2 by lia. reflexivity.
  - reflexivity.
  - repeat constructor.
Defined.

(** The empty JSON object against a store of one key. *)
Lemma acknowledge_alert_without_key_witness :
  acknowledge_alert ∅ {[ "simulated_tent1_danger_130" ]} =
    ret (refused, {[ "simulated_tent1_danger_130" ]}) ∧
  status_code refused ≠ 200.
Proof.
  apply (acknowledge_alert_without_key ∅ {[ "simulated_tent1_danger_130" ]}).
  left. reflexivity.
Defined.

(** C3 at a result set with a NULL device: the row of the NULL cell has
    [None] in its "device" field, which is neither a float nor a string. *)
Theorem null_identifier_cell_gives_none :
  run_query decimal_float (service succeeded None rows_with_null_device)
    latest_query 30 =
  (Return (PyList [
     list_to_map [("device", VStr "00:0f:00:70:91:0a");
                  ("co", VFloat 0.004%float)];
     list_to_map [("device", VNone); ("co", VFloat 0.005%float)] ]),
   [EvStartQueryExecution latest_query DATABASE OUTPUT_S3;
    EvGetQueryExecution "query-1"; EvGetQueryResults "query-1"]) ∧
  ¬ float_or_string VNone.
Proof.
  split; [vm_compute; reflexivity | intros []].
Qed.

(** C7 at a budget of zero seconds: the result is the error dict of the
    unbound [status], not the timeout. *)
Theorem zero_budget_is_not_a_timeout :
  run_query decimal_float (service always_running None [])
    latest_query 0 =
  (Return (ErrorDict (str (unbound_local_error "status"))),
   [EvStartQueryExecution latest_query DATABASE OUTPUT_S3]) ∧
  str (unbound_local_error "status") ≠ "Query timeout".
Proof.
  split; [vm_compute; reflexivity | discriminate].
Qed.

(** The default budget against a service that keeps running: thirty
    polls, thirty seconds of sleep, then the timeout. *)
Lemma run_query_timeout_default :
  run_query decimal_float (service always_running None [])
    latest_query 30 =
  (Return (ErrorDict "Query timeout"),
   EvStartQueryExecution latest_query DATABASE OUTPUT_S3 ::
   polling "query-1" 30) ∧
  slept (run_query decimal_float (service always_running None [])
           latest_query 30).2 = 30 ∧
  polls (run_query decimal_float (service always_running None [])
           latest_query 30).2 = 30%nat.
Proof.
  apply (run_query_timeout decimal_float (service always_running None [])
           latest_query "query-1" 30).
  - reflexivity.
  - lia.
  - intros w Hw. exists "RUNNING", None. split; reflexivity.
Defined.

(** [latest] on a result set with one data row: the row, then the
    simulated alert record. *)
Lemma latest_with_one_row :
  latest decimal_float
    (service succeeded None
       [ [cell "device"; cell "co"];
         [cell "00:0f:00:70:91:0a"; cell "0.004"] ])
    1700000000 =
  (Return
     {| status_code := 200;
        body := JList [
          list_to_map [("device", VStr "00:0f:00:70:91:0a");
                       ("co", VFloat 0.004%float)];
          simulated_alert_row 1700000000 ] |},
   [EvStartQueryExecution latest_query DATABASE OUTPUT_S3;
    EvGetQueryExecution "query-1"; EvGetQueryResults "query-1"]).
Proof. vm_compute. reflexivity. Qed.

(** An acknowledged key enters the store, and a reset empties it. *)
Lemma acknowledge_then_reset :
  acknowledge_alert {[ "alert_key" := JString "x" ]} ∅ =
    ret (jsonify (JDict (list_to_map [("success", VBool true);
                                      ("acknowledged", VStr "x")])),
         {[ "x" ]}) ∧
  reset_alerts {[ "x" ]} =
    ret (jsonify (JDict (list_to_map [("success", VBool true);
                                      ("message", VStr "All alerts reset")])),
         ∅).
Proof. split; reflexivity. Qed.

(** The run behind [null_identifier_cell_gives_none] returned rows: its
    first poll saw SUCCEEDED. *)
Lemma run_query_list_after_success_witness :
  ∃ query_id k,
    submitted (service succeeded None rows_with_null_device)
      latest_query query_id ∧
    0 ≤ k < 30 ∧
    saw_succeeded (service succeeded None rows_with_null_device) query_id k.
Proof.
  eapply (run_query_list_after_success decimal_float
            (service succeeded None rows_with_null_device) latest_query 30).
  vm_compute. reflexivity.
Defined.

(** Two data rows under the headers "device" and "co", the second one
    short of its "co" cell. *)
Lemma run_query_decodes_witness :
  ∃ data,
    run_query decimal_float
      (service succeeds_after_2 None
         [ [cell "device"; cell "co"];
           [cell "00:0f:00:70:91:0a"; cell "0.004"];
           [cell "1c:bf:ce:15:ec:4d"] ])
      latest_query 30 =
    (Return (PyList data),
     EvStartQueryExecution latest_query DATABASE OUTPUT_S3 ::
     polling "query-1" 2 ++
     [EvGetQueryExecution "query-1"; EvGetQueryResults "query-1"]) ∧
    Forall2 (decodes decimal_float ["device"; "co"])
      [ [cell "00:0f:00:70:91:0a"; cell "0.004"];
        [cell "1c:bf:ce:15:ec:4d"] ]
      data.
Proof.
  apply (run_query_decodes decimal_float
           (service succeeds_after_2 None
              [ [cell "device"; cell "co"];
                [cell "00:0f:00:70:91:0a"; cell "0.004"];
                [cell "1c:bf:ce:15:ec:4d"] ])
           latest_query "query-1" 30 2 None ["device"; "co"]).
  - reflexivity.
  - lia.
  - intros w Hw. exists "RUNNING", None. split; [| reflexivity].
    unfold observes, service, succeeds_after_2. simpl.
    rewrite bool_decide_eq_true_2 by lia. reflexivity.
  - reflexivity.
  - reflexivity.
  - repeat constructor.
Defined.

(** A second data row of three cells under two headers. *)
Lemma run_query_long_row_witness :
  (run_query decimal_float
     (service succeeded None
        [ [cell "device"; cell "co"];
          [cell "00:0f:00:70:91:0a"; cell "0.004"];
          [cell "1c:bf:ce:15:ec:4d"; cell "0.005"; cell "21.5"] ])
     latest_query 30).1 =
  Return (ErrorDict "list index out of range").
Proof.
  apply (run_query_long_row decimal_float
           (service succeeded None
              [ [cell "device"; cell "co"];
                [cell "00:0f:00:70:91:0a"; cell "0.004"];
                [cell "1c:bf:ce:15:ec:4d"; cell "0.005"; cell "21.5"] ])
           latest_query "query-1" 30 0 None ["device"; "co"]
           [ [cell "00:0f:00:70:91:0a"; cell "0.004"];
             [cell "1c:bf:ce:15:ec:4d"; cell "0.005"; cell "21.5"] ]).
  - reflexivity.
  - lia.
  - intros w Hw. lia.
  - reflexivity.
  - reflexivity.
  - apply Exists_cons_tl, Exists_cons_hd. simpl. lia.
Defined.

(** A negative budget against a service that would keep running. *)
Lemma run_query_no_budget_witness :
  run_query decimal_float (service always_running None [])
    avg_metrics_query (-5) =
  (Return (ErrorDict (str (unbound_local_error "status"))),
   [EvStartQueryExecution avg_metrics_query DATABASE OUTPUT_S3]).
Proof.
  apply (run_query_no_budget decimal_float (service always_running None [])
           avg_metrics_query "query-1" (-5)).
  - reflexivity.
  - lia.
Defined.

(** The fields of the rows with the NULL device. *)
Lemma run_query_fields_or_none_witness :
  fields (λ v, float_or_string v ∨ v = VNone)
    [ list_to_map [("device", VStr "00:0f:00:70:91:0a");
                   ("co", VFloat 0.004%float)];
      list_to_map [("device", VNone); ("co", VFloat 0.005%float)] ].
Proof.
  eapply (run_query_fields_or_none decimal_float
            (service succeeded None rows_with_null_device) latest_query 30).
  vm_compute. reflexivity.
Defined.

(** The fields of one row without a NULL. *)
Lemma run_query_fields_no_null_witness :
  fields float_or_string
    [ list_to_map [("device", VStr "00:0f:00:70:91:0a");
                   ("co", VFloat 0.004%float)] ].
Proof.
  eapply (run_query_fields_no_null decimal_float
            (service succeeded None
               [ [cell "device"; cell "co"];
                 [cell "00:0f:00:70:91:0a"; cell "0.004"] ])
            latest_query 30).
  - intros query_id response result_set rows row cells c
      [= <-] [= <-] [= <-] Hrow Hdata Hc.
    simpl in Hrow.
    repeat (apply elem_of_cons in Hrow as [-> | Hrow]);
      [| | by apply elem_of_nil in Hrow];
      injection Hdata as <-;
      repeat (apply elem_of_cons in Hc as [-> | Hc]);
      try (by apply elem_of_nil in Hc); by eexists.
  - vm_compute. reflexivity.
Defined.

(** A service that answers the submission without an id. *)
Lemma run_query_missing_id_witness :
  run_query decimal_float
    {| start_query_execution := λ _ _ _,
         Return {| QueryExecutionId := None |};
       get_query_execution := get_query_execution unreachable;
       get_query_results := get_query_results unreachable |}
    latest_query 30 =
  (Return (ErrorDict "'QueryExecutionId'"),
   [EvStartQueryExecution latest_query DATABASE OUTPUT_S3]).
Proof.
  apply (run_query_missing_id decimal_float
           {| start_query_execution := λ _ _ _,
                Return {| QueryExecutionId := None |};
              get_query_execution := get_query_execution unreachable;
              get_query_results := get_query_results unreachable |}
           latest_query 30).
  reflexivity.
Defined.

(** A result set of no row at all. *)
Lemma run_query_no_rows_witness :
  run_query decimal_float (service succeeded None []) temp_dist_query 30 =
  (Return (PyList []),
   EvStartQueryExecution temp_dist_query DATABASE OUTPUT_S3 ::
   polling "query-1" 0 ++
   [EvGetQueryExecution "query-1"; EvGetQueryResults "query-1"]).
Proof.
  apply (run_query_no_rows decimal_float (service succeeded None [])
           temp_dist_query "query-1" 30 0 None).
  - reflexivity.
  - lia.
  - intros w Hw. lia.
  - reflexivity.
  - reflexivity.
Defined.

(** One row of averages through [avg_metrics] and through [latest]. *)
Lemma route_passes_rows_witness :
  route decimal_float
    (service succeeded None
       [ [cell "device"; cell "avg_co"];
         [cell "00:0f:00:70:91:0a"; cell "0.004"] ])
    uniform_low round_id minutes_ago AvgMetrics ∅ 1700000000 ∅ =
  (Return ({| status_code := 200;
              body := JList [
                list_to_map [("device", VStr "00:0f:00:70:91:0a");
                             ("avg_co", VFloat 0.004%float)] ] |}, ∅),
   [EvStartQueryExecution avg_metrics_query DATABASE OUTPUT_S3;
    EvGetQueryExecution "query-1"; EvGetQueryResults "query-1"]).
Proof.
  apply (route_passes_rows decimal_float
           (service succeeded None
              [ [cell "device"; cell "avg_co"];
                [cell "00:0f:00:70:91:0a"; cell "0.004"] ])
           uniform_low round_id minutes_ago AvgMetrics avg_metrics_query
           ∅ 1700000000 ∅).
  - reflexivity.
  - vm_compute. reflexivity.
Defined.

(** The key "x" acknowledged into the empty store. *)
Lemma acknowledge_alert_adds_key_witness :
  ∃ acknowledged_alerts',
    acknowledge_alert {[ "alert_key" := JString "x" ]} ∅ =
      ret ({| status_code := 200;
              body := JDict (list_to_map [("success", VBool true);
                                          ("acknowledged", VStr "x")]) |},
           acknowledged_alerts') ∧
    (∀ k, k ∈ acknowledged_alerts' ↔ k = "x" ∨ k ∈ (∅ : gset string)) ∧
    (acknowledge_alert {[ "alert_key" := JString "x" ]}
       acknowledged_alerts').1 =
      (acknowledge_alert {[ "alert_key" := JString "x" ]} ∅).1.
Proof.
  apply (acknowledge_alert_adds_key {[ "alert_key" := JString "x" ]} ∅ "x").
  - reflexivity.
  - discriminate.
Defined.

(** The empty key against a store of one key. *)
Lemma acknowledge_alert_empty_key_witness :
  acknowledge_alert {[ "alert_key" := JString "" ]} {[ "x" ]} =
  ret (refused, {[ "x" ]}).
Proof.
  apply (acknowledge_alert_empty_key {[ "alert_key" := JString "" ]}
           {[ "x" ]}).
  reflexivity.
Defined.

(** The point of minute 41 for the first device. *)
Lemma co_trend_points_witness :
  ∃ data,
    co_trend uniform_low round_id minutes_ago =
      (Return {| status_code := 200; body := JList data |}, []) ∧
    length data = 150%nat ∧
    ∃ point co,
      data !! 123%nat = Some point ∧
      point !! "ts" = Some (VInt (minutes_ago 9)) ∧
      point !! "device" = Some (VStr "b8:27:eb:bf:9d:51") ∧
      point !! "co" = Some (VFloat co).
Proof.
  destruct (co_trend_points uniform_low round_id minutes_ago)
    as (data & Hdata & Hlength & Hpoints).
  exists data. split; [exact Hdata |]. split; [exact Hlength |].
  apply (Hpoints 41%nat 0%nat "b8:27:eb:bf:9d:51").
  - lia.
  - reflexivity.
Defined.

(** Minute 41: the first device draws from the highest band, the third
    one from the safe band. *)
Lemma co_trend_bands_witness :
  ∃ data point point',
    co_trend uniform_low round_id minutes_ago =
      (Return {| status_code := 200; body := JList data |}, []) ∧
    data !! 123%nat = Some point ∧
    point !! "co" = Some (VFloat 0.120%float) ∧
    data !! 125%nat = Some point' ∧
    point' !! "co" = Some (VFloat 0.003%float).
Proof.
  destruct (co_trend_bands uniform_low round_id minutes_ago _
              41%nat 0%nat "b8:27:eb:bf:9d:51" eq_refl ltac:(lia) eq_refl)
    as (point & Hpoint & Hco).
  destruct (co_trend_bands uniform_low round_id minutes_ago _
              41%nat 2%nat "1c:bf:ce:15:ec:4d" eq_refl ltac:(lia) eq_refl)
    as (point' & Hpoint' & Hco').
  eexists _, point, point'.
  split; [reflexivity |]. by repeat split.
Defined.

(** Two columns of the same name: the later cell is the field. *)
Lemma duplicate_header_last_wins :
  (run_query decimal_float
     (service succeeded None
        [ [cell "co"; cell "co"]; [cell "0.004"; cell "0.005"] ])
     latest_query 30).1 =
  Return (PyList [ {[ "co" := VFloat 0.005%float ]} ]).
Proof. vm_compute. reflexivity. Qed.

(** ** The routes at concrete requests *)

(** The service out of reach behind [avg_metrics] and [latest]; the
    reset route on a request Flask refuses; the key 0 on the acknowledge
    route. *)
Lemma handlers_on_failure_and_status_witness :
  route_any decimal_float unreachable uniform_low round_id minutes_ago
    (list json_scalar) log_add log_clear
    AvgMetrics (Return (JsObject [])) 1700000000 [] =
  (Return ({| status_code := 200; body := JList [] |}, []),
   [EvStartQueryExecution avg_metrics_query DATABASE OUTPUT_S3]) ∧
  route_any decimal_float unreachable uniform_low round_id minutes_ago
    (list json_scalar) log_add log_clear
    Latest (Return (JsObject [])) 1700000000 [] =
  (Return ({| status_code := 200;
              body := JList [simulated_alert_row 1700000000] |}, []),
   [EvStartQueryExecution latest_query DATABASE OUTPUT_S3]) ∧
  (∃ response acknowledged_alerts' t,
     route_any decimal_float unreachable uniform_low round_id minutes_ago
       (list json_scalar) log_add log_clear
       ResetAlerts (Raise (Exn RuntimeError "415 Unsupported Media Type"))
       1700000000 [JsString "x"] =
     (Return (response, acknowledged_alerts'), t) ∧
     status_code response = 200) ∧
  (refused = refused ∧
   [JsString "x"] = [JsString "x"] ∧
   ∃ members,
     Return (JsObject [("alert_key", JsScalar (JsInt 0))]) =
       Return (JsObject members) ∧
     key_truthy members = false) ∧
  route_any decimal_float unreachable uniform_low round_id minutes_ago
    (list json_scalar) log_add log_clear
    AcknowledgeAlert (Return (JsObject [("alert_key", JsScalar (JsInt 0))]))
    1700000000 [JsString "x"] =
  ret (refused, [JsString "x"]).
Proof.
  destruct (handlers_on_failure_and_status decimal_float unreachable
              uniform_low round_id minutes_ago
              (list json_scalar) log_add log_clear)
    as (Hfailure & Hothers & Hrefusal & Hfalse).
  split; [| split; [| split; [| split]]].
  - apply (Hfailure AvgMetrics avg_metrics_query (Return (JsObject []))
             1700000000 [] "Could not connect to the endpoint URL");
      reflexivity.
  - apply (Hfailure Latest latest_query (Return (JsObject []))
             1700000000 [] "Could not connect to the endpoint URL");
      reflexivity.
  - apply (Hothers ResetAlerts). discriminate.
  - apply (Hrefusal
             (Return (JsObject [("alert_key", JsScalar (JsInt 0))]))
             1700000000 [JsString "x"] [JsString "x"] refused []).
    + reflexivity.
    + discriminate.
  - apply (Hfalse [("alert_key", JsScalar (JsInt 0))] 1700000000
             [JsString "x"]).
    reflexivity.
Defined.

(** C1 as stated fails twice. With the service out of reach the proxy
    reports a failure and [latest] answers with the simulated alert
    record, not with the empty list; and the acknowledge handler
    answers 400 to a request whose [alert_key] is there, as the empty
    string. *)
Lemma latest_and_empty_key_refute_the_claim :
  ¬ failure_answers_empty_list decimal_float unreachable
      uniform_low round_id minutes_ago
      (list json_scalar) log_add log_clear ∧
  ¬ non_200_only_without_key decimal_float unreachable
      uniform_low round_id minutes_ago
      (list json_scalar) log_add log_clear.
Proof.
  split.
  - intros Hclaim.
    specialize (Hclaim Latest latest_query (Return (JsObject []))
                  1700000000 []
                  "Could not connect to the endpoint URL"
                  [EvStartQueryExecution latest_query DATABASE OUTPUT_S3]
                  eq_refl eq_refl).
    vm_compute in Hclaim. discriminate Hclaim.
  - intros Hclaim.
    destruct (Hclaim AcknowledgeAlert
                (Return (JsObject [("alert_key", JsScalar (JsString ""))]))
                1700000000 [] [] refused [] eq_refl ltac:(discriminate))
      as (_ & members & [= <-] & [Hkey | Hkey]);
      vm_compute in Hkey; discriminate Hkey.
Qed.

(** The acknowledge handler beyond the documented interface: a list as
    body and a list as key raise, Flask's refusal of the body passes
    through, the key 7 is acknowledged, and the keys 0 and false are
    refused. *)
Lemma acknowledge_alert_any_examples :
  (acknowledge_alert_any (list json_scalar) log_add
     (Return (JsArray [])) []).1 =
    Raise (Exn AttributeError "'list' object has no attribute 'get'") ∧
  (acknowledge_alert_any (list json_scalar) log_add
     (Return (JsObject [("alert_key", JsArray [JsScalar (JsInt 1)])]))
     []).1 =
    Raise (Exn TypeError "unhashable type: 'list'") ∧
  (acknowledge_alert_any (list json_scalar) log_add
     (Raise (Exn RuntimeError "415 Unsupported Media Type")) []).1 =
    Raise (Exn RuntimeError "415 Unsupported Media Type") ∧
  acknowledge_alert_any (list json_scalar) log_add
    (Return (JsObject [("alert_key", JsScalar (JsInt 7))])) [] =
    ret (jsonify (JDict (list_to_map [("success", VBool true);
                                      ("acknowledged", VInt 7)])),
         [JsInt 7]) ∧
  acknowledge_alert_any (list json_scalar) log_add
    (Return (JsObject [("alert_key", JsScalar (JsInt 0))])) [] =
    ret (refused, []) ∧
  acknowledge_alert_any (list json_scalar) log_add
    (Return (JsObject [("alert_key", JsScalar (JsBool false))])) [] =
    ret (refused, []).
Proof. repeat split; reflexivity. Qed.

(** The key 7 through the acknowledge route: 200, and 7 is added. *)
Lemma route_effect_witness :
  (status_code
     (jsonify (JDict (list_to_map [("success", VBool true);
                                   ("acknowledged", VInt 7)]))) = 400 ∧
   [JsInt 7; JsString "x"] = [JsString "x"]) ∨
  (status_code
     (jsonify (JDict (list_to_map [("success", VBool true);
                                   ("acknowledged", VInt 7)]))) = 200 ∧
   ∃ members x,
     Return (JsObject [("alert_key", JsScalar (JsInt 7))]) =
       Return (JsObject members) ∧
     dict_get "alert_key" members = Some (JsScalar x) ∧
     scalar_truthy x = true ∧
     [JsInt 7; JsString "x"] = log_add [JsString "x"] x).
Proof.
  destruct (route_effect decimal_float unreachable uniform_low round_id
              minutes_ago (list json_scalar) log_add log_clear
              AcknowledgeAlert
              (Return (JsObject [("alert_key", JsScalar (JsInt 7))]))
              1700000000 [JsString "x"]) as [_ Heffect].
  apply (Heffect
           (jsonify (JDict (list_to_map [("success", VBool true);
                                         ("acknowledged", VInt 7)])))
           [JsInt 7; JsString "x"]).
  reflexivity.
Defined.

(** The key "x" acknowledged into the store of "y": the empty string is
    in neither. *)
Lemma route_keeps_keys_non_empty_witness :
  "" ∉ ({[ "x" ]} ∪ {[ "y" ]} : gset string).
Proof.
  eapply (route_keeps_keys_non_empty decimal_float unreachable
            uniform_low round_id minutes_ago AcknowledgeAlert
            {[ "alert_key" := JString "x" ]} 1700000000 {[ "y" ]}).
  - apply (bool_decide_unpack _). reflexivity.
  - reflexivity.
Defined.
